(** * FirmwareOTA: the over-the-air update sketch of the IoT DevKit

    A shallow embedding of [Device/FirmwareOTA.ino] and the properties of
    its update controller ([CheckNewFirmware]), its failure handler
    ([OTAUpdateFailed]) and its status reporter ([ReportOTAStatus]).

    The sketch is sequential C++ over a handful of global variables and a
    set of board-support calls (Wi-Fi, MQTT client, OTA download and apply,
    clock, screen, log, reboot).  The globals are a record that is passed
    along; every board-support call is recorded as an [Event] in the order
    in which it is made, and what the call answers is read from a record of
    [Collaborators].  A function body is a computation in the monad [M]
    below, whose [Flow] tells a statement that fell through from a [return]
    and from [SystemReboot], which does not come back. *)

From Stdlib Require Import ZArith List String Ascii Bool Lia.
Import ListNotations.

Local Open Scope string_scope.
Local Open Scope list_scope.
Local Open Scope Z_scope.

(** ** C data *)

Module C.

(** [uint16_t]: conversion of an integer to the type keeps it modulo 2^16. *)
Definition to_uint16 (z : Z) : Z := z mod 2 ^ 16.

(** [unsigned long] of the board (ARM Cortex-M4, ILP32). *)
Definition ULONG_MAX : Z := 2 ^ 32 - 1.

Definition to_ulong (z : Z) : Z := z mod 2 ^ 32.

Definition code (c : ascii) : Z := Z.of_N (N_of_ascii c).

Definition strlen (s : string) : Z := Z.of_nat (String.length s).

(** [strncmp s1 s2 n]: the difference at the first of the leading [n]
    characters where the two strings differ, 0 when there is none. *)
Fixpoint strncmp (s1 s2 : string) (n : nat) : Z :=
  match n with
  | O => 0
  | S n' =>
      match s1, s2 with
      | EmptyString, EmptyString => 0
      | EmptyString, String c2 _ => 0 - code c2
      | String c1 _, EmptyString => code c1
      | String c1 r1, String c2 r2 =>
          if Ascii.eqb c1 c2 then strncmp r1 r2 n' else code c1 - code c2
      end
  end.

Definition isspace (c : ascii) : bool :=
  (code c =? 32) || ((9 <=? code c) && (code c <=? 13)).

(** The value of [c] as a digit of [strtoul]: 0-9, then the letters in
    either case from 10 on. *)
Definition digit_value (c : ascii) : option Z :=
  let n := code c in
  if (48 <=? n) && (n <=? 57) then Some (n - 48)
  else if (97 <=? n) && (n <=? 122) then Some (n - 87)
  else if (65 <=? n) && (n <=? 90) then Some (n - 55)
  else None.

Fixpoint skip_space (s : string) : string :=
  match s with
  | String c r => if isspace c then skip_space r else s
  | EmptyString => s
  end.

(** The longest run of digits of the base at the head of [s], read as a
    number, most significant digit first. *)
Fixpoint digits (base : Z) (s : string) (acc : Z) : Z :=
  match s with
  | String c r =>
      match digit_value c with
      | Some d => if d <? base then digits base r (acc * base + d) else acc
      | None => acc
      end
  | EmptyString => acc
  end.

Definition is_x (c : ascii) : bool := (code c =? 120) || (code c =? 88).

(** [strtoul nptr NULL base] for a base from 2 to 36: white space, an
    optional sign, for base 16 an optional [0x], the digits.  A value that
    does not fit is [ULONG_MAX]; a minus sign negates within the type. *)
Definition strtoul (nptr : string) (base : Z) : Z :=
  let s := skip_space nptr in
  let '(neg, s) :=
    match s with
    | String "-" r => (true, r)
    | String "+" r => (false, r)
    | _ => (false, s)
    end in
  let s :=
    match s with
    | String "0" (String x r) => if (base =? 16) && is_x x then r else s
    | _ => s
    end in
  let acc := digits base s 0 in
  if ULONG_MAX <? acc then ULONG_MAX
  else if neg then to_ulong (0 - acc) else acc.

(** *** Calendar time *)

Record tm : Type := mk_tm {
  tm_sec : Z;
  tm_min : Z;
  tm_hour : Z;
  tm_mday : Z;
  tm_mon : Z;   (* months since January *)
  tm_year : Z   (* years since 1900 *)
}.

(** [gmtime]: seconds since 1970-01-01T00:00:00Z to the proleptic Gregorian
    calendar. *)
Definition gmtime (t : Z) : tm :=
  let days := t / 86400 in
  let secs := t mod 86400 in
  let z := days + 719468 in
  let era := z / 146097 in
  let doe := z mod 146097 in
  let yoe := (doe - doe / 1460 + doe / 36524 - doe / 146096) / 365 in
  let doy := doe - (365 * yoe + yoe / 4 - yoe / 100) in
  let mp := (5 * doy + 2) / 153 in
  let d := doy - (153 * mp + 2) / 5 + 1 in
  let m := if mp <? 10 then mp + 3 else mp - 9 in
  let y := yoe + era * 400 + (if m <=? 2 then 1 else 0) in
  {| tm_sec := secs mod 60;
     tm_min := (secs / 60) mod 60;
     tm_hour := secs / 3600;
     tm_mday := d;
     tm_mon := m - 1;
     tm_year := y - 1900 |}.

Definition digit_char (d : Z) : ascii := ascii_of_N (Z.to_N (48 + d)).

Fixpoint dec_digits (fuel : nat) (n : Z) (acc : string) : string :=
  match fuel with
  | O => acc
  | S fuel' =>
      let acc' := String (digit_char (n mod 10)) acc in
      if n <? 10 then acc' else dec_digits fuel' (n / 10) acc'
  end.

(** A number in decimal. *)
Definition dec (n : Z) : string :=
  if n <? 0 then String "-" (dec_digits (S (Z.to_nat (Z.log2 (- n)))) (- n) "")
  else dec_digits (S (Z.to_nat (Z.log2 n))) n "".

(** A number in decimal on at least two digits, as [%m], [%d], [%H], [%M]
    and [%S] print it. *)
Definition dec2 (n : Z) : string :=
  if (0 <=? n) && (n <? 10) then String "0" (dec n) else dec n.

(** The characters [strftime] produces for a format, for the conversions
    [%Y %m %d %H %M %S %%]; any other character stands for itself. *)
Fixpoint strftime_chars (format : string) (t : tm) : string :=
  match format with
  | String "%" (String c r) =>
      let field :=
        if Ascii.eqb c "Y" then dec (tm_year t + 1900)
        else if Ascii.eqb c "m" then dec2 (tm_mon t + 1)
        else if Ascii.eqb c "d" then dec2 (tm_mday t)
        else if Ascii.eqb c "H" then dec2 (tm_hour t)
        else if Ascii.eqb c "M" then dec2 (tm_min t)
        else if Ascii.eqb c "S" then dec2 (tm_sec t)
        else String c "" in
      (field ++ strftime_chars r t)%string
  | String c r => String c (strftime_chars r t)
  | EmptyString => ""
  end.

(** [strftime s maxsize format t]: the number of characters placed in the
    array and the array afterwards.  When the characters and the terminating
    null do not fit in [maxsize], the result is 0 and C leaves the contents
    of the array indeterminate: the model keeps the contents [s] that the
    array had, which for an array without initialiser is whatever the
    caller was given. *)
Definition strftime (s : string) (maxsize : Z) (format : string) (t : tm)
  : Z * string :=
  let out := strftime_chars format t in
  if strlen out + 1 <=? maxsize then (strlen out, out) else (0, s).

End C.

Import C.

(** ** Board-support declarations *)

(** [FW_INFO] of [DevKitOTAUtils.h]: three C strings, any of which may be a
    null pointer ([None]), and the package size, an [int]. *)
Record FW_INFO : Type := mk_FW_INFO {
  fwVersion : option string;
  fwPackageURI : option string;
  fwPackageCheckValue : option string;
  fwSize : Z
}.

(** Modelled from the spec: the keys of the status record are macros of
    [DevKitOTAUtils.h], which is not part of the sources; they are named
    after the fields of the spec's StatusRecord (currentVersion,
    pendingVersion, status, substatus, startTime, endTime). *)
Definition OTA_CURRENT_FW_VERSION : string := "currentVersion".
Definition OTA_PENDING_FW_VERSION : string := "pendingVersion".
Definition OTA_FW_UPDATE_STATUS : string := "status".
Definition OTA_FW_UPDATE_SUBSTATUS : string := "substatus".
Definition OTA_LAST_FW_UPDATE_STARTTIME : string := "startTime".
Definition OTA_LAST_FW_UPDATE_ENDTIME : string := "endTime".

(** Modelled from the spec: the status values are macros of
    [DevKitOTAUtils.h], which is not part of the sources; the spec's status
    vocabulary is CURRENT, DOWNLOADING, APPLYING, ERROR. *)
Definition OTA_STATUS_CURRENT : string := "CURRENT".
Definition OTA_STATUS_DOWNLOADING : string := "DOWNLOADING".
Definition OTA_STATUS_APPLYING : string := "APPLYING".
Definition OTA_STATUS_ERROR : string := "ERROR".

(** [wl_status_t] value of a joined network ([AZ3166WiFi.h]). *)
Definition WL_CONNECTED : Z := 3.

Definition OPTION_MINI_SOLUTION_NAME : string := "MiniSolution".

(** A map of the shared utility library: the key/value pairs in the order
    they were added. *)
Definition MAP : Type := list (string * string).

(** What a variable of type [MAP_HANDLE] holds: a null pointer, a map, or
    the pointer that is left when the map has been destroyed. *)
Inductive MAP_HANDLE : Type :=
| Handle_NULL
| Handle_map (m : MAP)
| Handle_destroyed.

Definition Map_Create : MAP := [].

Fixpoint Map_GetValueFromKey (m : MAP) (key : string) : option string :=
  match m with
  | [] => None
  | (k, v) :: r => if String.eqb k key then Some v else Map_GetValueFromKey r key
  end.

(** [Map_Add] refuses a key that is already there. *)
Definition Map_Add (m : MAP) (key value : string) : MAP :=
  match Map_GetValueFromKey m key with
  | Some _ => m
  | None => m ++ [(key, value)]
  end.

(** [Map_Add(handle, key, value)]: a handle that holds no map is refused. *)
Definition Map_Add_to (h : MAP_HANDLE) (key value : string) : MAP_HANDLE :=
  match h with
  | Handle_map m => Handle_map (Map_Add m key value)
  | _ => h
  end.

(** [Map_Destroy(handle)]: the map is freed, the variable keeps the pointer. *)
Definition Map_Destroy (h : MAP_HANDLE) : MAP_HANDLE :=
  match h with
  | Handle_map _ => Handle_destroyed
  | _ => h
  end.

(** The entries a handle gives access to. *)
Definition entries (h : MAP_HANDLE) : MAP :=
  match h with
  | Handle_map m => m
  | _ => []
  end.

(** The calls the sketch makes on the board and the services, in the order
    it makes them. *)
Inductive Event : Type :=
| Ev_Screen_init
| Ev_Screen_clean
| Ev_Screen_print (line : Z) (s : string)
| Ev_Serial_begin (baud : Z)
| Ev_WiFi_begin
| Ev_WiFi_localIP
| Ev_LogInfo (msg : string)
| Ev_DevKitMQTTClient_SetOption (name value : string)
| Ev_DevKitMQTTClient_Init (hasDeviceTwin : bool)
| Ev_DevKitMQTTClient_Check
| Ev_DevKitMQTTClient_Close
| Ev_IoTHubClient_GetLatestFwInfo
| Ev_IoTHubClient_FwVersionCompare (fwVersion1 fwVersion2 : string)
| Ev_IoTHubClient_ReportOTAStatus (OTAStatusMap : MAP)
| Ev_OTADownloadFirmware (url : string)
| Ev_OTAApplyNewFirmware (fwSize : Z) (checksum : Z)
| Ev_time
| Ev_delay (ms : Z)
| Ev_SystemReboot.

(** What the calls answer during one pass of [loop] (or during [setup]). *)
Record Collaborators : Type := mk_Collaborators {
  WiFi_begin_ret : Z;
  WiFi_localIP_ret : string;
  IoTHubClient_GetLatestFwInfo_ret : option FW_INFO;
  IoTHubClient_FwVersionCompare_ret : string -> string -> Z;
  (* the value returned and the value left in the [uint16_t] the second
     argument points to *)
  OTADownloadFirmware_ret : string -> Z * Z;
  OTAApplyNewFirmware_ret : Z -> Z -> Z;
  (* the clock at its first, second, ... reading *)
  time_ret : nat -> Z;
  (* the contents of an array declared without initialiser *)
  uninitialized : string
}.

(** The global variables of the sketch (lines 13-17). *)
Record Globals : Type := mk_Globals {
  hasWifi : bool;
  enableOTA : bool;
  fwInfo : option FW_INFO;
  OTAStatusMap : MAP_HANDLE
}.

Definition currentFirmwareVersion : string := "1.0.0".

(** The state of the globals when the sketch starts. *)
Definition initial : Globals :=
  {| hasWifi := false; enableOTA := true; fwInfo := None;
     OTAStatusMap := Handle_NULL |}.

(** ** The monad of function bodies *)

Inductive Flow (A : Type) : Type :=
| Normal (a : A)   (* fell through to the next statement *)
| Returned         (* a [return] statement was executed *)
| Rebooted.        (* [SystemReboot] was called: nothing follows *)
Arguments Normal {A} a.
Arguments Returned {A}.
Arguments Rebooted {A}.

Definition M (A : Type) : Type :=
  Collaborators -> Globals -> Flow A * Globals * list Event.

Definition ret {A} (a : A) : M A := fun _ g => (Normal a, g, []).

Definition bind {A B} (m : M A) (k : A -> M B) : M B :=
  fun env g =>
    match m env g with
    | (Normal a, g1, t1) =>
        let '(f, g2, t2) := k a env g1 in (f, g2, t1 ++ t2)
    | (Returned, g1, t1) => (Returned, g1, t1)
    | (Rebooted, g1, t1) => (Rebooted, g1, t1)
    end.

Declare Scope ota_scope.
Delimit Scope ota_scope with ota.
Notation "x <- m ;; k" := (bind m (fun x => k))
  (at level 61, m at next level, right associativity) : ota_scope.
Notation "m ;; k" := (bind m (fun _ => k))
  (at level 61, right associativity) : ota_scope.
Local Open Scope ota_scope.

(** A [return] statement of a [void] function. *)
Definition return_ {A} : M A := fun _ g => (Returned, g, []).

(** A call of a [void] function: its [return] ends the callee only. *)
Definition call (body : M unit) : M unit :=
  fun env g =>
    match body env g with
    | (Returned, g1, t1) => (Normal tt, g1, t1)
    | r => r
    end.

Definition emit (e : Event) : M unit := fun _ g => (Normal tt, g, [e]).
Definition ask {A} (f : Collaborators -> A) : M A :=
  fun env g => (Normal (f env), g, []).
Definition get {A} (f : Globals -> A) : M A := fun _ g => (Normal (f g), g, []).
Definition put (f : Globals -> Globals) : M unit :=
  fun _ g => (Normal tt, f g, []).

(** [if (c) { body }] without an [else]. *)
Definition when (c : bool) (body : M unit) : M unit :=
  if c then body else ret tt.

(** [for (int i = from; i < from + count; i++) body]. *)
Fixpoint for_ (from : Z) (count : nat) (body : Z -> M unit) : M unit :=
  match count with
  | O => ret tt
  | S count' => body from ;; for_ (from + 1) count' body
  end.

Definition set_hasWifi (b : bool) : M unit :=
  put (fun g => {| hasWifi := b; enableOTA := enableOTA g; fwInfo := fwInfo g;
                   OTAStatusMap := OTAStatusMap g |}).
Definition set_enableOTA (b : bool) : M unit :=
  put (fun g => {| hasWifi := hasWifi g; enableOTA := b; fwInfo := fwInfo g;
                   OTAStatusMap := OTAStatusMap g |}).
Definition set_fwInfo (p : option FW_INFO) : M unit :=
  put (fun g => {| hasWifi := hasWifi g; enableOTA := enableOTA g; fwInfo := p;
                   OTAStatusMap := OTAStatusMap g |}).
Definition set_OTAStatusMap (h : MAP_HANDLE) : M unit :=
  put (fun g => {| hasWifi := hasWifi g; enableOTA := enableOTA g;
                   fwInfo := fwInfo g; OTAStatusMap := h |}).

(** ** The board-support calls *)

Definition Screen_init : M unit := emit Ev_Screen_init.
Definition Screen_clean : M unit := emit Ev_Screen_clean.
Definition Screen_print (line : Z) (s : string) : M unit :=
  emit (Ev_Screen_print line s).
Definition Serial_begin (baud : Z) : M unit := emit (Ev_Serial_begin baud).
Definition LogInfo (msg : string) : M unit := emit (Ev_LogInfo msg).
Definition delay (ms : Z) : M unit := emit (Ev_delay ms).
Definition WiFi_begin : M Z := emit Ev_WiFi_begin ;; ask WiFi_begin_ret.
Definition WiFi_localIP : M string := emit Ev_WiFi_localIP ;; ask WiFi_localIP_ret.
Definition DevKitMQTTClient_SetOption (name value : string) : M unit :=
  emit (Ev_DevKitMQTTClient_SetOption name value).
Definition DevKitMQTTClient_Init (hasDeviceTwin : bool) : M unit :=
  emit (Ev_DevKitMQTTClient_Init hasDeviceTwin).
Definition DevKitMQTTClient_Check : M unit := emit Ev_DevKitMQTTClient_Check.
Definition DevKitMQTTClient_Close : M unit := emit Ev_DevKitMQTTClient_Close.
Definition IoTHubClient_GetLatestFwInfo : M (option FW_INFO) :=
  emit Ev_IoTHubClient_GetLatestFwInfo ;; ask IoTHubClient_GetLatestFwInfo_ret.
Definition IoTHubClient_FwVersionCompare (v1 v2 : string) : M Z :=
  emit (Ev_IoTHubClient_FwVersionCompare v1 v2) ;;
  ask (fun env => IoTHubClient_FwVersionCompare_ret env v1 v2).
Definition IoTHubClient_ReportOTAStatus (m : MAP) : M unit :=
  emit (Ev_IoTHubClient_ReportOTAStatus m).
(** [OTADownloadFirmware(url, &checksum)]: the size returned and the
    [uint16_t] checksum afterwards. *)
Definition OTADownloadFirmware (url : string) : M (Z * Z) :=
  emit (Ev_OTADownloadFirmware url) ;;
  r <- ask (fun env => OTADownloadFirmware_ret env url) ;;
  ret (fst r, to_uint16 (snd r)).
Definition OTAApplyNewFirmware (size checksum : Z) : M Z :=
  emit (Ev_OTAApplyNewFirmware size checksum) ;;
  ask (fun env => OTAApplyNewFirmware_ret env size checksum).
(** [time(NULL)], the [k]-th reading of the clock in this pass. *)
Definition time (k : nat) : M Z := emit Ev_time ;; ask (fun env => time_ret env k).
Definition SystemReboot : M unit := fun _ g => (Rebooted, g, [Ev_SystemReboot]).

(** [%s] of a [printf]-style format, given a pointer. *)
Definition fmt_s (p : option string) : string :=
  match p with Some s => s | None => "(null)" end.

(** ** The sketch *)

Definition CRLF : string := String (ascii_of_nat 13) (String (ascii_of_nat 10) "").

(** Initialize Wi-Fi *)
Definition InitWifi : M unit :=
  Screen_print 2 "Connecting..." ;;
  st <- WiFi_begin ;;
  if st =? WL_CONNECTED then
    ip <- WiFi_localIP ;;
    Screen_print 1 ip ;;
    set_hasWifi true ;;
    Screen_print 2 ("Running... " ++ CRLF)%string
  else
    set_hasWifi false ;;
    Screen_print 1 ("No Wi-Fi" ++ CRLF ++ " ")%string.

(** Report the OTA update status to Azure.  An argument that is a null
    pointer ([None]) adds no entry. *)
Definition ReportOTAStatus
    (currentFwVersion pendingFwVersion fwUpdateStatus fwUpdateSubstatus
     lastFwUpdateStartTime lastFwUpdateEndTime : option string) : M unit :=
  (* [Map_Add(OTAStatusMap, key, value)] on the global *)
  let add (key value : string) : M unit :=
    h <- get OTAStatusMap ;;
    set_OTAStatusMap (Map_Add_to h key value) in
  (* [if (value) { Map_Add(OTAStatusMap, key, value); }] *)
  let add_if (key : string) (value : option string) : M unit :=
    match value with
    | Some v => add key v
    | None => ret tt
    end in
  set_OTAStatusMap (Handle_map Map_Create) ;;
  add "type" "IoTDevKit" ;;
  add_if OTA_CURRENT_FW_VERSION currentFwVersion ;;
  add_if OTA_PENDING_FW_VERSION pendingFwVersion ;;
  add_if OTA_FW_UPDATE_STATUS fwUpdateStatus ;;
  add_if OTA_FW_UPDATE_SUBSTATUS fwUpdateSubstatus ;;
  add_if OTA_LAST_FW_UPDATE_STARTTIME lastFwUpdateStartTime ;;
  add_if OTA_LAST_FW_UPDATE_ENDTIME lastFwUpdateEndTime ;;
  h <- get OTAStatusMap ;;
  IoTHubClient_ReportOTAStatus (entries h) ;;
  set_OTAStatusMap (Map_Destroy h) ;;
  DevKitMQTTClient_Check.

(** Enter a failed state, print failed message and report status *)
Definition OTAUpdateFailed (failedMsg : string) : M unit :=
  p <- get fwInfo ;;
  ReportOTAStatus (Some currentFirmwareVersion)
    (match p with Some fi => fwVersion fi | None => Some "" end)
    (Some OTA_STATUS_ERROR) (Some failedMsg) (Some "") (Some "") ;;
  set_enableOTA false ;;
  Screen_print 1 "OTA failed:" ;;
  Screen_print 2 failedMsg ;;
  Screen_print 3 " " ;;
  LogInfo ("Failed to update firmware "
           ++ fmt_s (match p with Some fi => fwVersion fi | None => Some "<unknown>" end)
           ++ ": " ++ failedMsg ++ ", disable OTA update.")%string.

Definition time_format : string := "%Y-%m-%dT%H:%M:%S.0000000Z".

(** The count-down before the reboot: [msg[0] = '0' + 5 - i]. *)
Definition countdown_msg (i : Z) : string :=
  String (ascii_of_N (Z.to_N (code "0" + 5 - i))) "".

(** Check for new firmware *)
Definition CheckNewFirmware : M unit :=
  en <- get enableOTA ;;
  when (negb en) return_ ;;
  (* Check if there has new firmware info. *)
  p <- IoTHubClient_GetLatestFwInfo ;;
  set_fwInfo p ;;
  match p with
  | None =>
      (* No firmware update info *)
      return_
  | Some fi =>
      match fwVersion fi, fwPackageURI fi with
      | Some fi_fwVersion, Some fi_fwPackageURI =>
          (* Check if the URL is https as we require it for safety purpose. *)
          when ((strlen fi_fwPackageURI <? 6)
                || negb (strncmp "https:" fi_fwPackageURI 6 =? 0))
            (OTAUpdateFailed "URINotHTTPS" ;; return_) ;;
          (* Check if this is a new version. *)
          cmp <- IoTHubClient_FwVersionCompare fi_fwVersion currentFirmwareVersion ;;
          when (cmp <=? 0) return_ ;;
          (* New firmware *)
          Screen_print 1 "New firmware:" ;;
          Screen_print 2 fi_fwVersion ;;
          LogInfo ("New firmware is available: " ++ fi_fwVersion ++ ".")%string ;;
          Screen_print 3 " downloading..." ;;
          LogInfo (">> Downloading from " ++ fi_fwPackageURI ++ "...")%string ;;
          (* Report downloading status. *)
          startTimeStr <- ask uninitialized ;;
          t <- time 0 ;;
          let startTimeStr := snd (strftime startTimeStr 30 time_format (gmtime t)) in
          ReportOTAStatus (Some currentFirmwareVersion) (Some fi_fwVersion)
            (Some OTA_STATUS_DOWNLOADING) (Some fi_fwPackageURI)
            (Some startTimeStr) (Some "") ;;
          (* Close IoT Hub Client to release the TLS resource for firmware download. *)
          DevKitMQTTClient_Close ;;
          (* Download the firmware. *)
          dl <- OTADownloadFirmware fi_fwPackageURI ;;
          let '(fwSize_, checksum) := dl in
          (* Reopen the IoT Hub Client for reporting status. *)
          DevKitMQTTClient_Init true ;;
          (* Check result *)
          (if (fwSize_ =? 0) || (fwSize_ =? -1) then
             OTAUpdateFailed "DownloadFailed" ;; return_
           else if fwSize_ =? -2 then
             OTAUpdateFailed "DeviceError" ;; return_
           else if negb (fwSize_ =? fwSize fi) then
             OTAUpdateFailed "FileSizeNotMatch" ;; return_
           else ret tt) ;;
          Screen_print 3 " Finished." ;;
          LogInfo ">> Finished download." ;;
          (* CRC check *)
          match fwPackageCheckValue fi with
          | Some fi_fwPackageCheckValue =>
              Screen_print 3 " verifying..." ;;
              if checksum =? strtoul fi_fwPackageCheckValue 16 then
                Screen_print 3 " passed." ;;
                LogInfo ">> CRC check passed."
              else
                OTAUpdateFailed "VerifyFailed" ;;
                Screen_print 3 " CRC failed." ;;
                return_
          | None => ret tt
          end ;;
          (* Applying *)
          rc <- OTAApplyNewFirmware fwSize_ checksum ;;
          when (negb (rc =? 0))
            (OTAUpdateFailed "ApplyFirmwareFailed" ;;
             Screen_print 3 " Apply failed." ;;
             return_) ;;
          (* Report status *)
          endTimeStr <- ask uninitialized ;;
          t <- time 1 ;;
          let endTimeStr := snd (strftime endTimeStr 30 time_format (gmtime t)) in
          ReportOTAStatus (Some currentFirmwareVersion) (Some fi_fwVersion)
            (Some OTA_STATUS_APPLYING) (Some "")
            (Some startTimeStr) (Some endTimeStr) ;;
          (* Counting down and reboot *)
          Screen_clean ;;
          Screen_print 0 "Reboot system" ;;
          LogInfo "Reboot system to apply the new firmware:" ;;
          for_ 0 5 (fun i =>
            let msg := countdown_msg i in
            Screen_print 2 msg ;;
            LogInfo msg ;;
            delay 1000) ;;
          (* Reboot system to apply the firmware. *)
          SystemReboot
      | _, _ =>
          (* Disable *)
          LogInfo "Invalid new firmware infomation retrieved, disable OTA update." ;;
          set_enableOTA false ;;
          return_
      end
  end.

Definition setup : M unit :=
  Screen_init ;;
  Screen_print 0 "IoT DevKit" ;;
  Screen_print 2 "Initializing..." ;;
  Screen_print 3 " > Serial" ;;
  Serial_begin 115200 ;;
  (* Initialize the WiFi module *)
  Screen_print 3 " > WiFi" ;;
  set_hasWifi false ;;
  call InitWifi ;;
  w <- get hasWifi ;;
  when (negb w) return_ ;;
  (* Print out the version *)
  Screen_print 1 "FW version:" ;;
  Screen_print 2 currentFirmwareVersion ;;
  Screen_print 3 " checking..." ;;
  (* Initialize MQTT client *)
  DevKitMQTTClient_SetOption OPTION_MINI_SOLUTION_NAME "FirmwareOTA" ;;
  DevKitMQTTClient_Init true ;;
  LogInfo ("FirmwareOTA demo: " ++ currentFirmwareVersion)%string ;;
  (* Report OTA status *)
  ReportOTAStatus (Some currentFirmwareVersion) (Some "")
    (Some OTA_STATUS_CURRENT) (Some "") None None.

Definition loop : M unit :=
  w <- get hasWifi ;;
  when w
    (DevKitMQTTClient_Check ;;
     (* Check for new firmware *)
     call CheckNewFirmware ;;
     LogInfo "No new firmware...") ;;
  delay 1000.

(** One poll tick: a call of [CheckNewFirmware] from the globals [g], with
    the collaborators answering as [env] says.  The result is how the call
    ended, the globals afterwards, and the calls made. *)
Definition tick (env : Collaborators) (g : Globals)
  : Flow unit * Globals * list Event :=
  call CheckNewFirmware env g.

(** The passes of [loop], one record of answers for each, until the list
    runs out or the board reboots. *)
Fixpoint loops (envs : list Collaborators) : M unit :=
  match envs with
  | [] => ret tt
  | env :: envs' => (fun _ => call loop env) ;; loops envs'
  end.

(** The Arduino run-time: [setup] once, then [loop] again and again. *)
Definition sketch (env0 : Collaborators) (envs : list Collaborators)
  : Flow unit * Globals * list Event :=
  (call setup ;; loops envs) env0 initial.

(** ** Observations on a run *)

Definition Run : Type := (Flow unit * Globals * list Event)%type.

Definition flow_of (r : Run) : Flow unit := fst (fst r).
Definition globals_of (r : Run) : Globals := snd (fst r).
Definition events_of (r : Run) : list Event := snd r.

Definition is_fetch (e : Event) : bool :=
  match e with Ev_IoTHubClient_GetLatestFwInfo => true | _ => false end.
Definition is_report (e : Event) : bool :=
  match e with Ev_IoTHubClient_ReportOTAStatus _ => true | _ => false end.
Definition is_download (e : Event) : bool :=
  match e with Ev_OTADownloadFirmware _ => true | _ => false end.
Definition is_apply (e : Event) : bool :=
  match e with Ev_OTAApplyNewFirmware _ _ => true | _ => false end.
Definition is_reboot (e : Event) : bool :=
  match e with Ev_SystemReboot => true | _ => false end.

Definition status_of (m : MAP) : option string :=
  Map_GetValueFromKey m OTA_FW_UPDATE_STATUS.
Definition substatus_of (m : MAP) : option string :=
  Map_GetValueFromKey m OTA_FW_UPDATE_SUBSTATUS.
Definition startTime_of (m : MAP) : option string :=
  Map_GetValueFromKey m OTA_LAST_FW_UPDATE_STARTTIME.
Definition endTime_of (m : MAP) : option string :=
  Map_GetValueFromKey m OTA_LAST_FW_UPDATE_ENDTIME.

Definition holds (o : option string) (s : string) : bool :=
  match o with Some s' => String.eqb s' s | None => false end.

(** A status report whose status is [status]. *)
Definition is_status (status : string) (e : Event) : bool :=
  match e with
  | Ev_IoTHubClient_ReportOTAStatus m => holds (status_of m) status
  | _ => false
  end.

(** An error report: a status report whose status is [OTA_STATUS_ERROR]. *)
Definition is_error (e : Event) : bool := is_status OTA_STATUS_ERROR e.

(** An error report whose substatus is [tag]. *)
Definition is_failure (tag : string) (e : Event) : bool :=
  match e with
  | Ev_IoTHubClient_ReportOTAStatus m =>
      holds (status_of m) OTA_STATUS_ERROR && holds (substatus_of m) tag
  | _ => false
  end.

Definition occurs (p : Event -> bool) (t : list Event) : bool := existsb p t.

Definition count (p : Event -> bool) (t : list Event) : nat :=
  List.length (filter p t).

(** The index of the first event of [t] that satisfies [p]. *)
Fixpoint position (p : Event -> bool) (t : list Event) : option nat :=
  match t with
  | [] => None
  | e :: r => if p e then Some O else option_map S (position p r)
  end.

(** The check of line 109: the package URI starts with [https:]. *)
Definition uri_is_https (uri : string) : bool :=
  negb ((strlen uri <? 6) || negb (strncmp "https:" uri 6 =? 0)).

(** The tick went past the checks on the size: it logged the end of the
    download (line 166). *)
Definition is_finished_download (e : Event) : bool :=
  match e with
  | Ev_LogInfo msg => String.eqb msg ">> Finished download."
  | _ => false
  end.

(** The tick printed that it verifies the checksum (line 171). *)
Definition is_verifying (e : Event) : bool :=
  match e with
  | Ev_Screen_print line s => (line =? 3) && String.eqb s " verifying..."
  | _ => false
  end.

Definition is_time (e : Event) : bool :=
  match e with Ev_time => true | _ => false end.

(** A call that closes or opens the reporting channel. *)
Definition is_channel (e : Event) : bool :=
  match e with
  | Ev_DevKitMQTTClient_Close | Ev_DevKitMQTTClient_Init _ => true
  | _ => false
  end.

(** The events of a pass of [loop] while the controller is disabled. *)
Definition idle_event (e : Event) : bool :=
  match e with
  | Ev_DevKitMQTTClient_Check | Ev_LogInfo _ | Ev_delay _ => true
  | _ => false
  end.



(** ** How far a tick gets *)

Definition lacks_version_or_uri (fi : FW_INFO) : bool :=
  match fwVersion fi, fwPackageURI fi with
  | Some _, Some _ => false
  | _, _ => true
  end.

(** The metadata fetched in this pass lacks a version or a package URI. *)
Definition malformed (env : Collaborators) : bool :=
  match IoTHubClient_GetLatestFwInfo_ret env with
  | Some fi => lacks_version_or_uri fi
  | None => false
  end.

(** The tick starts enabled and fetches the candidate [fi], which has a
    version [v] and a package URI [u]. *)
Record Candidate (env : Collaborators) (g : Globals) (fi : FW_INFO)
    (v u : string) : Prop := mk_Candidate {
  cand_enabled : enableOTA g = true;
  cand_latest : IoTHubClient_GetLatestFwInfo_ret env = Some fi;
  cand_version : fwVersion fi = Some v;
  cand_uri : fwPackageURI fi = Some u
}.

(** The tick gets to the download: the candidate passes the https check
    and compares newer than the running firmware. *)
Record Downloads (env : Collaborators) (g : Globals) (fi : FW_INFO)
    (v u : string) : Prop := mk_Downloads {
  dl_candidate : Candidate env g fi v u;
  dl_https : uri_is_https u = true;
  dl_newer : 0 < IoTHubClient_FwVersionCompare_ret env v currentFirmwareVersion
}.

(** The tick gets to the CRC check: the download returned the size [n] and
    left the checksum [c], and [n] passed the checks of lines 146-163. *)
Record Verifies (env : Collaborators) (g : Globals) (fi : FW_INFO)
    (v u : string) (n c : Z) : Prop := mk_Verifies {
  vf_downloads : Downloads env g fi v u;
  vf_download : OTADownloadFirmware_ret env u = (n, c);
  vf_not_failed : n <> 0 /\ n <> -1 /\ n <> -2;
  vf_size : n = fwSize fi
}.

(** The check of lines 169-185 lets the checksum [c] through. *)
Definition crc_passes (fi : FW_INFO) (c : Z) : Prop :=
  match fwPackageCheckValue fi with
  | Some h => to_uint16 c = strtoul h 16
  | None => True
  end.

(** The time stamp of [t] and its terminating null fit the 30 characters of
    [startTimeStr] and [endTimeStr]. *)
Definition timestamp_fits (t : Z) : Prop :=
  strlen (strftime_chars time_format (gmtime t)) + 1 <= 30.

(** ** The outcomes of a tick *)

(** The globals after [fwInfo = IoTHubClient_GetLatestFwInfo()]. *)
Definition fetched (g : Globals) (p : option FW_INFO) : Globals :=
  {| hasWifi := hasWifi g; enableOTA := enableOTA g; fwInfo := p;
     OTAStatusMap := OTAStatusMap g |}.

(** The globals after a call of [ReportOTAStatus]: [OTAStatusMap] is left
    with the pointer to the map that was destroyed. *)
Definition reported (g : Globals) : Globals :=
  {| hasWifi := hasWifi g; enableOTA := enableOTA g; fwInfo := fwInfo g;
     OTAStatusMap := Handle_destroyed |}.

(** The globals after [enableOTA = false]. *)
Definition cleared (g : Globals) : Globals :=
  {| hasWifi := hasWifi g; enableOTA := false; fwInfo := fwInfo g;
     OTAStatusMap := OTAStatusMap g |}.

(** The map [ReportOTAStatus] sends when none of its arguments is null. *)
Definition status_map (pending status substatus startTime endTime : string) : MAP :=
  [("type", "IoTDevKit");
   (OTA_CURRENT_FW_VERSION, currentFirmwareVersion);
   (OTA_PENDING_FW_VERSION, pending);
   (OTA_FW_UPDATE_STATUS, status);
   (OTA_FW_UPDATE_SUBSTATUS, substatus);
   (OTA_LAST_FW_UPDATE_STARTTIME, startTime);
   (OTA_LAST_FW_UPDATE_ENDTIME, endTime)].

(** The calls of [OTAUpdateFailed(msg)] while the candidate's version is [v]. *)
Definition failed_events (v msg : string) : list Event :=
  [Ev_IoTHubClient_ReportOTAStatus (status_map v OTA_STATUS_ERROR msg "" "");
   Ev_DevKitMQTTClient_Check;
   Ev_Screen_print 1 "OTA failed:";
   Ev_Screen_print 2 msg;
   Ev_Screen_print 3 " ";
   Ev_LogInfo ("Failed to update firmware " ++ v ++ ": " ++ msg
               ++ ", disable OTA update.")%string].

(** The start time reported with [OTA_STATUS_DOWNLOADING]. *)
Abbreviation startTimeStr_of env :=
  (snd (strftime (uninitialized env) 30 time_format (gmtime (time_ret env 0%nat)))).

(** The end time reported with [OTA_STATUS_APPLYING]. *)
Abbreviation endTimeStr_of env :=
  (snd (strftime (uninitialized env) 30 time_format (gmtime (time_ret env 1%nat)))).

(** The calls up to the announcement of the new firmware (lines 93-129). *)
Definition announce_events (v u : string) : list Event :=
  [Ev_IoTHubClient_GetLatestFwInfo;
   Ev_IoTHubClient_FwVersionCompare v currentFirmwareVersion;
   Ev_Screen_print 1 "New firmware:";
   Ev_Screen_print 2 v;
   Ev_LogInfo ("New firmware is available: " ++ v ++ ".")%string;
   Ev_Screen_print 3 " downloading...";
   Ev_LogInfo (">> Downloading from " ++ u ++ "...")%string].

(** The calls around the download (lines 131-143). *)
Definition transfer_events (env : Collaborators) (v u : string) : list Event :=
  [Ev_time;
   Ev_IoTHubClient_ReportOTAStatus
     (status_map v OTA_STATUS_DOWNLOADING u (startTimeStr_of env) "");
   Ev_DevKitMQTTClient_Check;
   Ev_DevKitMQTTClient_Close;
   Ev_OTADownloadFirmware u;
   Ev_DevKitMQTTClient_Init true].

Definition download_events (env : Collaborators) (v u : string) : list Event :=
  announce_events v u ++ transfer_events env v u.

Definition finished_events : list Event :=
  [Ev_Screen_print 3 " Finished."; Ev_LogInfo ">> Finished download."].

(** The calls of a CRC check that passes (lines 169-177). *)
Definition crc_events (fi : FW_INFO) : list Event :=
  match fwPackageCheckValue fi with
  | Some _ =>
      [Ev_Screen_print 3 " verifying..."; Ev_Screen_print 3 " passed.";
       Ev_LogInfo ">> CRC check passed."]
  | None => []
  end.

(** The calls after a successful apply (lines 196-215). *)
Definition reboot_events (env : Collaborators) (v : string) : list Event :=
  [Ev_time;
   Ev_IoTHubClient_ReportOTAStatus
     (status_map v OTA_STATUS_APPLYING "" (startTimeStr_of env) (endTimeStr_of env));
   Ev_DevKitMQTTClient_Check;
   Ev_Screen_clean;
   Ev_Screen_print 0 "Reboot system";
   Ev_LogInfo "Reboot system to apply the new firmware:";
   Ev_Screen_print 2 "5"; Ev_LogInfo "5"; Ev_delay 1000;
   Ev_Screen_print 2 "4"; Ev_LogInfo "4"; Ev_delay 1000;
   Ev_Screen_print 2 "3"; Ev_LogInfo "3"; Ev_delay 1000;
   Ev_Screen_print 2 "2"; Ev_LogInfo "2"; Ev_delay 1000;
   Ev_Screen_print 2 "1"; Ev_LogInfo "1"; Ev_delay 1000;
   Ev_SystemReboot].

(** The eleven ways through [CheckNewFirmware]: the tests that select the
    way, and the run it gives. *)
Inductive Tick (env : Collaborators) (g : Globals) : Run -> Prop :=
| Tick_disabled :
    enableOTA g = false ->
    Tick env g (Normal tt, g, [])
| Tick_no_candidate :
    enableOTA g = true ->
    IoTHubClient_GetLatestFwInfo_ret env = None ->
    Tick env g (Normal tt, fetched g None, [Ev_IoTHubClient_GetLatestFwInfo])
| Tick_malformed fi :
    enableOTA g = true ->
    IoTHubClient_GetLatestFwInfo_ret env = Some fi ->
    lacks_version_or_uri fi = true ->
    Tick env g
      (Normal tt, cleared (fetched g (Some fi)),
       [Ev_IoTHubClient_GetLatestFwInfo;
        Ev_LogInfo "Invalid new firmware infomation retrieved, disable OTA update."])
| Tick_insecure fi v u :
    Candidate env g fi v u ->
    uri_is_https u = false ->
    Tick env g
      (Normal tt, cleared (reported (fetched g (Some fi))),
       Ev_IoTHubClient_GetLatestFwInfo :: failed_events v "URINotHTTPS")
| Tick_stale fi v u :
    Candidate env g fi v u ->
    uri_is_https u = true ->
    IoTHubClient_FwVersionCompare_ret env v currentFirmwareVersion <= 0 ->
    Tick env g
      (Normal tt, fetched g (Some fi),
       [Ev_IoTHubClient_GetLatestFwInfo;
        Ev_IoTHubClient_FwVersionCompare v currentFirmwareVersion])
| Tick_download_failed fi v u n c :
    Downloads env g fi v u ->
    OTADownloadFirmware_ret env u = (n, c) ->
    n = 0 \/ n = -1 ->
    Tick env g
      (Normal tt, cleared (reported (fetched g (Some fi))),
       download_events env v u ++ failed_events v "DownloadFailed")
| Tick_device_error fi v u n c :
    Downloads env g fi v u ->
    OTADownloadFirmware_ret env u = (n, c) ->
    n = -2 ->
    Tick env g
      (Normal tt, cleared (reported (fetched g (Some fi))),
       download_events env v u ++ failed_events v "DeviceError")
| Tick_size_not_match fi v u n c :
    Downloads env g fi v u ->
    OTADownloadFirmware_ret env u = (n, c) ->
    n <> 0 /\ n <> -1 /\ n <> -2 ->
    n <> fwSize fi ->
    Tick env g
      (Normal tt, cleared (reported (fetched g (Some fi))),
       download_events env v u ++ failed_events v "FileSizeNotMatch")
| Tick_verify_failed fi v u n c h :
    Verifies env g fi v u n c ->
    fwPackageCheckValue fi = Some h ->
    to_uint16 c <> strtoul h 16 ->
    Tick env g
      (Normal tt, cleared (reported (fetched g (Some fi))),
       download_events env v u ++ finished_events
       ++ [Ev_Screen_print 3 " verifying..."]
       ++ failed_events v "VerifyFailed"
       ++ [Ev_Screen_print 3 " CRC failed."])
| Tick_apply_failed fi v u n c :
    Verifies env g fi v u n c ->
    crc_passes fi c ->
    OTAApplyNewFirmware_ret env n (to_uint16 c) <> 0 ->
    Tick env g
      (Normal tt, cleared (reported (fetched g (Some fi))),
       download_events env v u ++ finished_events ++ crc_events fi
       ++ [Ev_OTAApplyNewFirmware n (to_uint16 c)]
       ++ failed_events v "ApplyFirmwareFailed"
       ++ [Ev_Screen_print 3 " Apply failed."])
| Tick_updated fi v u n c :
    Verifies env g fi v u n c ->
    crc_passes fi c ->
    OTAApplyNewFirmware_ret env n (to_uint16 c) = 0 ->
    Tick env g
      (Rebooted, reported (fetched g (Some fi)),
       download_events env v u ++ finished_events ++ crc_events fi
       ++ [Ev_OTAApplyNewFirmware n (to_uint16 c)]
       ++ reboot_events env v).

(** ** Further observations *)

(** A call on the MQTT client. *)
Definition is_mqtt (e : Event) : bool :=
  match e with
  | Ev_DevKitMQTTClient_SetOption _ _ | Ev_DevKitMQTTClient_Init _
  | Ev_DevKitMQTTClient_Check | Ev_DevKitMQTTClient_Close => true
  | _ => false
  end.


Definition is_init (e : Event) : bool :=
  match e with Ev_DevKitMQTTClient_Init _ => true | _ => false end.

Definition is_delay (e : Event) : bool :=
  match e with Ev_delay _ => true | _ => false end.

Definition is_compare (e : Event) : bool :=
  match e with Ev_IoTHubClient_FwVersionCompare _ _ => true | _ => false end.

Definition is_localIP (e : Event) : bool :=
  match e with Ev_WiFi_localIP => true | _ => false end.

(** The milliseconds a call waits. *)
Definition delay_of (e : Event) : Z :=
  match e with Ev_delay ms => ms | _ => 0 end.

(** The milliseconds the calls of a run wait in all. *)
Definition waited (t : list Event) : Z :=
  fold_right (fun e acc => delay_of e + acc) 0 t.

(** What the screen is asked to print on a line, in order. *)
Definition printed (line : Z) (t : list Event) : list string :=
  flat_map (fun e =>
              match e with
              | Ev_Screen_print l s => if l =? line then [s] else []
              | _ => []
              end) t.

(** The maps reported, in order. *)
Definition reports (t : list Event) : list MAP :=
  flat_map (fun e =>
              match e with
              | Ev_IoTHubClient_ReportOTAStatus m => [m]
              | _ => []
              end) t.

(** The number of arguments of [ReportOTAStatus] that are not null. *)
Definition given (args : list (option string)) : nat :=
  List.length (filter (fun a => match a with Some _ => true | None => false end) args).

(** The globals after [InitWifi]. *)
Definition with_wifi (g : Globals) (b : bool) : Globals :=
  {| hasWifi := b; enableOTA := enableOTA g; fwInfo := fwInfo g;
     OTAStatusMap := OTAStatusMap g |}.


(** ** Sample inputs *)

Definition enabled : Globals :=
  {| hasWifi := true; enableOTA := true; fwInfo := None;
     OTAStatusMap := Handle_NULL |}.

Definition parked : Globals :=
  {| hasWifi := true; enableOTA := false; fwInfo := None;
     OTAStatusMap := Handle_NULL |}.

(** Answers of the collaborators for one pass: the candidate offered, the
    result of the version comparison, of the download and of the apply. *)
Definition answers (latest : option FW_INFO) (cmp : Z) (dl : Z * Z) (rc : Z)
  : Collaborators :=
  {| WiFi_begin_ret := WL_CONNECTED;
     WiFi_localIP_ret := "192.168.1.20";
     IoTHubClient_GetLatestFwInfo_ret := latest;
     IoTHubClient_FwVersionCompare_ret := fun _ _ => cmp;
     OTADownloadFirmware_ret := fun _ => dl;
     OTAApplyNewFirmware_ret := fun _ _ => rc;
     time_ret := fun k => 1500000000 + 60 * Z.of_nat k;
     uninitialized := "" |}.

(** The same answers on a board that does not join the network
    ([WL_DISCONNECTED] is 6). *)
Definition offline (env : Collaborators) : Collaborators :=
  {| WiFi_begin_ret := 6;
     WiFi_localIP_ret := WiFi_localIP_ret env;
     IoTHubClient_GetLatestFwInfo_ret := IoTHubClient_GetLatestFwInfo_ret env;
     IoTHubClient_FwVersionCompare_ret := IoTHubClient_FwVersionCompare_ret env;
     OTADownloadFirmware_ret := OTADownloadFirmware_ret env;
     OTAApplyNewFirmware_ret := OTAApplyNewFirmware_ret env;
     time_ret := time_ret env;
     uninitialized := uninitialized env |}.



Definition stale_insecure_candidate : FW_INFO :=
  {| fwVersion := Some "0.9.0"; fwPackageURI := Some "http://x";
     fwPackageCheckValue := None; fwSize := 100 |}.

Definition stale_candidate : FW_INFO :=
  {| fwVersion := Some "0.9.0"; fwPackageURI := Some "https://x";
     fwPackageCheckValue := None; fwSize := 100 |}.

Definition short_candidate : FW_INFO :=
  {| fwVersion := Some "1.1.0"; fwPackageURI := Some "https://x";
     fwPackageCheckValue := None; fwSize := 120 |}.

Definition empty_candidate : FW_INFO :=
  {| fwVersion := Some "1.1.0"; fwPackageURI := Some "https://x";
     fwPackageCheckValue := None; fwSize := 0 |}.

Definition good_candidate : FW_INFO :=
  {| fwVersion := Some "1.1.0"; fwPackageURI := Some "https://x/fw.bin";
     fwPackageCheckValue := Some "1A2B"; fwSize := 100 |}.

Definition wide_candidate : FW_INFO :=
  {| fwVersion := Some "1.1.0"; fwPackageURI := Some "https://x/fw.bin";
     fwPackageCheckValue := Some "1A2B3C4D"; fwSize := 100 |}.

(** The download answers 100 bytes with checksum 0x1A2B, the apply 0. *)
Definition good_answers : Collaborators :=
  answers (Some good_candidate) 1 (100, 6699) 0.

(** The download answers 100 bytes with checksum 0x1A2A. *)
Definition corrupt_answers : Collaborators :=
  answers (Some good_candidate) 1 (100, 6698) 0.

(** The download answers 100 bytes where 120 were announced. *)
Definition short_answers : Collaborators :=
  answers (Some short_candidate) 1 (100, 0) 0.

(** The check value reads as 0x1A2B3C4D, the checksum is 0x3C4D. *)
Definition wide_answers : Collaborators :=
  answers (Some wide_candidate) 1 (100, 15437) 0.

(** ** Symbolic execution of a pass *)

(** Runs the body on explicit globals and answers: unfolds the monad, the
    functions of the sketch and the map operations, and nothing of the C
    library. *)
Ltac exec :=
  cbv beta iota zeta delta
    [tick sketch loops loop setup InitWifi CheckNewFirmware OTAUpdateFailed
     ReportOTAStatus
     bind ret return_ call emit ask get put when for_
     set_hasWifi set_enableOTA set_fwInfo set_OTAStatusMap
     Map_Add_to Map_Destroy entries
     Screen_init Screen_clean Screen_print Serial_begin LogInfo delay
     WiFi_begin WiFi_localIP DevKitMQTTClient_SetOption DevKitMQTTClient_Init
     DevKitMQTTClient_Check DevKitMQTTClient_Close
     IoTHubClient_GetLatestFwInfo IoTHubClient_FwVersionCompare
     IoTHubClient_ReportOTAStatus OTADownloadFirmware OTAApplyNewFirmware
     time SystemReboot
     hasWifi enableOTA fwInfo OTAStatusMap
     fwVersion fwPackageURI fwPackageCheckValue fwSize
     WiFi_begin_ret WiFi_localIP_ret IoTHubClient_GetLatestFwInfo_ret
     IoTHubClient_FwVersionCompare_ret OTADownloadFirmware_ret
     OTAApplyNewFirmware_ret time_ret uninitialized
     Map_Create Map_Add Map_GetValueFromKey
     OTA_CURRENT_FW_VERSION OTA_PENDING_FW_VERSION OTA_FW_UPDATE_STATUS
     OTA_FW_UPDATE_SUBSTATUS OTA_LAST_FW_UPDATE_STARTTIME
     OTA_LAST_FW_UPDATE_ENDTIME
     fmt_s String.eqb Ascii.eqb Bool.eqb app];
  cbn [fst snd negb].

(** Writes an outcome out as the list of its calls. *)
Ltac unfold_outcome H :=
  cbv beta iota zeta delta
    [download_events announce_events transfer_events failed_events
     finished_events crc_events reboot_events status_map
     fetched cleared reported
     hasWifi enableOTA fwInfo OTAStatusMap
     fwVersion fwPackageURI fwPackageCheckValue fwSize
     time_ret uninitialized
     OTA_CURRENT_FW_VERSION OTA_PENDING_FW_VERSION OTA_FW_UPDATE_STATUS
     OTA_FW_UPDATE_SUBSTATUS OTA_LAST_FW_UPDATE_STARTTIME
     OTA_LAST_FW_UPDATE_ENDTIME app] in H.

(** Splits on the first test the execution is stuck on. *)
Ltac branch :=
  match goal with
  | |- context [if ?c then _ else _] => destruct c eqn:?
  | |- context [match ?o with Some _ => _ | None => _ end] => destruct o eqn:?
  end.

(** Turns the boolean tests in the context into (in)equalities. *)
Ltac tests :=
  repeat match goal with
  | H : (_ || _)%bool = true |- _ => apply orb_true_iff in H
  | H : (_ || _)%bool = false |- _ => apply orb_false_iff in H; destruct H
  | H : negb _ = true |- _ => apply negb_true_iff in H
  | H : negb _ = false |- _ => apply negb_false_iff in H
  | H : (_ =? _) = true |- _ => apply Z.eqb_eq in H
  | H : (_ =? _) = false |- _ => apply Z.eqb_neq in H
  | H : (_ <=? _) = true |- _ => apply Z.leb_le in H
  | H : (_ <=? _) = false |- _ => apply Z.leb_gt in H
  | H : (_ <? _) = true |- _ => apply Z.ltb_lt in H
  | H : (_ <? _) = false |- _ => apply Z.ltb_ge in H
  end.

(** Closes a condition of an outcome from the tests made on the way. *)
Ltac side :=
  cbn [fwVersion fwPackageURI fwPackageCheckValue fwSize
       IoTHubClient_GetLatestFwInfo_ret IoTHubClient_FwVersionCompare_ret
       OTADownloadFirmware_ret OTAApplyNewFirmware_ret enableOTA];
  first
    [ reflexivity
    | eassumption
    | exact I
    | unfold uri_is_https;
      match goal with H : (_ || _)%bool = _ |- _ => rewrite H; reflexivity end
    | solve [tests; first [assumption | lia | tauto]] ].

(** Closes a leaf of the execution with the outcome [t]. *)
Ltac leaf t :=
  let H := fresh "O" in
  assert (H := t); unfold_outcome H; exact H.

Lemma tick_outcome (env : Collaborators) (g : Globals) : Tick env g (tick env g).
Proof.
  destruct env as [wb ip [[[v|] [u|] chk sz]|] cmp dl ap clk junk],
    g as [w [|] p om];
    try (apply Tick_disabled; reflexivity);
    try (apply Tick_no_candidate; reflexivity);
    try (eapply Tick_malformed; reflexivity).
  destruct (dl u) as [n c] eqn:E.
  set (fi := {| fwVersion := Some v; fwPackageURI := Some u;
                fwPackageCheckValue := chk; fwSize := sz |}).
  set (env := {| WiFi_begin_ret := wb; WiFi_localIP_ret := ip;
                 IoTHubClient_GetLatestFwInfo_ret := Some fi;
                 IoTHubClient_FwVersionCompare_ret := cmp;
                 OTADownloadFirmware_ret := dl; OTAApplyNewFirmware_ret := ap;
                 time_ret := clk; uninitialized := junk |}).
  set (g := {| hasWifi := w; enableOTA := true; fwInfo := p;
               OTAStatusMap := om |}).
  assert (C : Candidate env g fi v u) by (repeat split).
  subst fi env g.
  exec; rewrite ?E; cbn [fst snd].
  (* the https check *)
  branch; exec; [ leaf (Tick_insecure _ _ _ v u C ltac:(side)) |].
  (* the comparison of the versions *)
  branch; exec; [ leaf (Tick_stale _ _ _ v u C ltac:(side) ltac:(side)) |].
  assert (D := mk_Downloads _ _ _ v u C ltac:(side) ltac:(side)).
  (* the size returned by the download *)
  branch; exec; [ leaf (Tick_download_failed _ _ _ v u n c D E ltac:(side)) |].
  branch; exec; [ leaf (Tick_device_error _ _ _ v u n c D E ltac:(side)) |].
  branch; exec;
    [ leaf (Tick_size_not_match _ _ _ v u n c D E ltac:(side) ltac:(side)) |].
  assert (V := mk_Verifies _ _ _ v u n c D E ltac:(side) ltac:(side)).
  (* the CRC check, then the apply *)
  destruct chk as [h|]; exec.
  - branch; exec.
    + assert (P : crc_passes (mk_FW_INFO (Some v) (Some u) (Some h) sz) c)
        by (unfold crc_passes; side).
      branch; exec;
        [ leaf (Tick_apply_failed _ _ _ v u n c V P ltac:(side))
        | leaf (Tick_updated _ _ _ v u n c V P ltac:(side)) ].
    + leaf (Tick_verify_failed _ _ _ v u n c h V eq_refl ltac:(side)).
  - assert (P : crc_passes (mk_FW_INFO (Some v) (Some u) None sz) c) by exact I.
    branch; exec;
      [ leaf (Tick_apply_failed _ _ _ v u n c V P ltac:(side))
      | leaf (Tick_updated _ _ _ v u n c V P ltac:(side)) ].
Qed.

(** Makes the stage records of the context explicit. *)
Ltac unpack :=
  repeat match goal with
  | H : Verifies _ _ _ _ _ _ _ |- _ => destruct H
  | H : Downloads _ _ _ _ _ |- _ => destruct H
  | H : Candidate _ _ _ _ _ |- _ => destruct H
  | H : _ /\ _ |- _ => destruct H
  end.

(** Identifies what two equations of the context say of the same answer. *)
Ltac same :=
  repeat match goal with
  | H1 : ?a = Some ?x, H2 : ?a = Some ?y |- _ =>
      first [ constr_eq x y; clear H2
            | rewrite H1 in H2; injection H2 as H2; try subst ]
  | H1 : ?a = (?x, ?y), H2 : ?a = (?x', ?y') |- _ =>
      first [ constr_eq x x'; constr_eq y y'; clear H2
            | rewrite H1 in H2; injection H2; clear H2; intros; try subst ]
  end.

(** Closes an outcome that the context excludes. *)
Ltac conflict :=
  exfalso;
  solve [ congruence
        | lia
        | intuition (lia || congruence)
        | unfold lacks_version_or_uri, crc_passes in *;
          repeat match goal with
          | H : _ = Some _ |- _ => rewrite H in *
          | H : _ = None |- _ => rewrite H in *
          end;
          cbv beta iota in *;
          first [ discriminate | congruence | contradiction ] ].

(** Splits a statement about [tick env g] along the outcomes of the tick. *)
Ltac outcomes env g :=
  cbv zeta;
  generalize (tick_outcome env g); generalize (tick env g);
  let r := fresh "r" in
  let T := fresh "T" in
  intros r T; destruct T; unpack; same; try conflict.

(** ** The C library *)

Lemma to_uint16_range (z : Z) : 0 <= to_uint16 z < 2 ^ 16.
Proof. unfold to_uint16. apply Z.mod_pos_bound. lia. Qed.

Lemma length_append (a b : string) :
  String.length (a ++ b) = (String.length a + String.length b)%nat.
Proof. induction a as [|x a IH]; cbn; [reflexivity | now rewrite IH]. Qed.

Lemma strftime_time_format (t : tm) :
  strftime_chars time_format t =
  (dec (tm_year t + 1900) ++ "-" ++ dec2 (tm_mon t + 1) ++ "-"
   ++ dec2 (tm_mday t) ++ "T" ++ dec2 (tm_hour t) ++ ":"
   ++ dec2 (tm_min t) ++ ":" ++ dec2 (tm_sec t) ++ ".0000000Z")%string.
Proof. reflexivity. Qed.

Lemma timestamp_written (s : string) (t : Z) :
  timestamp_fits t ->
  snd (strftime s 30 time_format (gmtime t)) = strftime_chars time_format (gmtime t).
Proof.
  unfold timestamp_fits, strftime. intros F.
  apply Z.leb_le in F. rewrite F. reflexivity.
Qed.

Lemma timestamp_nonempty (s : string) (t : Z) :
  timestamp_fits t -> snd (strftime s 30 time_format (gmtime t)) <> "".
Proof.
  intros F E. rewrite (timestamp_written s t F), strftime_time_format in E.
  apply (f_equal String.length) in E.
  rewrite length_append in E. cbn in E. lia.
Qed.

Lemma gmtime_range (t : Z) :
  - 2 ^ 31 <= t < 2 ^ 32 ->
  let m := gmtime t in
  1000 <= tm_year m + 1900 <= 9999 /\
  0 <= tm_mon m < 12 /\ 1 <= tm_mday m <= 31 /\
  0 <= tm_hour m < 24 /\ 0 <= tm_min m < 60 /\ 0 <= tm_sec m < 60.
Proof.
  intros H. unfold gmtime.
  cbn [tm_sec tm_min tm_hour tm_mday tm_mon tm_year].
  repeat split;
    try (destruct (_ <? 10) eqn:E; [apply Z.ltb_lt in E | apply Z.ltb_ge in E]);
    try destruct (_ <=? 2);
    Z.to_euclidean_division_equations; lia.
Qed.

Lemma dec_digits_length (k : nat) : forall (fuel : nat) (n : Z) (acc : string),
  (k < fuel)%nat ->
  0 <= n < 10 ^ Z.of_nat (S k) ->
  k = 0%nat \/ 10 ^ Z.of_nat k <= n ->
  String.length (dec_digits fuel n acc) = (S k + String.length acc)%nat.
Proof.
  induction k as [|k IH]; intros [|fuel] n acc F R L; try lia; cbn [dec_digits].
  - change (10 ^ Z.of_nat 1) with 10 in R.
    destruct (Z.ltb_spec n 10); [reflexivity | lia].
  - rewrite Nat2Z.inj_succ, Z.pow_succ_r in R, L by lia.
    rewrite Nat2Z.inj_succ, Z.pow_succ_r in R by lia.
    assert (P : 0 < 10 ^ Z.of_nat k) by (apply Z.pow_pos_nonneg; lia).
    destruct L as [L|L]; [discriminate|].
    destruct (Z.ltb_spec n 10); [lia|].
    rewrite IH.
    + cbn [String.length]. lia.
    + lia.
    + rewrite Nat2Z.inj_succ, Z.pow_succ_r by lia.
      split; [apply Z.div_pos; lia | apply Z.div_lt_upper_bound; lia].
    + right. apply Z.div_le_lower_bound; lia.
Qed.

Lemma dec_length_4 (y : Z) : 1000 <= y <= 9999 -> String.length (dec y) = 4%nat.
Proof.
  intros H. unfold dec. destruct (Z.ltb_spec y 0); [lia|].
  assert (9 <= Z.log2 y)
    by (change 9 with (Z.log2 1000); apply Z.log2_le_mono; lia).
  rewrite (dec_digits_length 3); [reflexivity | lia | cbn; lia | right; cbn; lia].
Qed.

Lemma dec2_length (n : Z) : 0 <= n < 100 -> String.length (dec2 n) = 2%nat.
Proof.
  intros H. unfold dec2, dec.
  destruct (Z.leb_spec 0 n); [|lia]. destruct (Z.ltb_spec n 0); [lia|].
  destruct (Z.ltb_spec n 10); cbn [andb String.length].
  - rewrite (dec_digits_length 0); [reflexivity | lia | cbn; lia | now left].
  - assert (3 <= Z.log2 n)
      by (change 3 with (Z.log2 10); apply Z.log2_le_mono; lia).
    rewrite (dec_digits_length 1); [reflexivity | lia | cbn; lia | right; cbn; lia].
Qed.

(** Every time a signed or an unsigned 32-bit [time_t] can hold has a time
    stamp of 28 characters, which fits. *)
Lemma timestamp_fits_32bit (t : Z) : - 2 ^ 31 <= t < 2 ^ 32 -> timestamp_fits t.
Proof.
  intros H. destruct (gmtime_range t H) as (Y & Mo & D & Ho & Mi & S).
  unfold timestamp_fits, strlen. rewrite strftime_time_format.
  repeat rewrite length_append.
  rewrite dec_length_4 by assumption.
  rewrite !dec2_length by lia.
  cbn. lia.
Qed.

(** ** Sample runs *)

Lemma short_downloads :
  Downloads short_answers enabled short_candidate "1.1.0" "https://x".
Proof. repeat split. Defined.

Lemma good_downloads :
  Downloads good_answers enabled good_candidate "1.1.0" "https://x/fw.bin".
Proof. repeat split. Defined.

Lemma corrupt_downloads :
  Downloads corrupt_answers enabled good_candidate "1.1.0" "https://x/fw.bin".
Proof. repeat split. Defined.

Lemma good_verifies :
  Verifies good_answers enabled good_candidate "1.1.0" "https://x/fw.bin" 100 6699.
Proof. split; [exact good_downloads | reflexivity | lia | reflexivity]. Defined.

Lemma corrupt_verifies :
  Verifies corrupt_answers enabled good_candidate "1.1.0" "https://x/fw.bin" 100 6698.
Proof. split; [exact corrupt_downloads | reflexivity | lia | reflexivity]. Defined.

Lemma wide_verifies :
  Verifies wide_answers enabled wide_candidate "1.1.0" "https://x/fw.bin" 100 15437.
Proof. split; [repeat split | reflexivity | lia | reflexivity]. Defined.

(** ** A disabled controller *)

Lemma tick_disabled (env : Collaborators) (g : Globals) :
  enableOTA g = false -> tick env g = (Normal tt, g, []).
Proof.
  destruct g as [w en p h]; cbn; intros ->. reflexivity.
Qed.

Lemma loop_disabled (env : Collaborators) (g : Globals) :
  enableOTA g = false ->
  call loop env g =
    (Normal tt, g,
     if hasWifi g
     then [Ev_DevKitMQTTClient_Check; Ev_LogInfo "No new firmware..."; Ev_delay 1000]
     else [Ev_delay 1000]).
Proof.
  destruct g as [[|] en p h]; cbn; intros ->; reflexivity.
Qed.

Lemma loops_disabled (envs : list Collaborators) (env : Collaborators) (g : Globals) :
  enableOTA g = false ->
  exists t, loops envs env g = (Normal tt, g, t) /\ forallb idle_event t = true.
Proof.
  intros H. revert env. induction envs as [|e envs IH]; intros env.
  - exists []. split; reflexivity.
  - destruct (IH env) as [t [E Ht]].
    cbn [loops]. unfold bind at 1. rewrite (loop_disabled e g H), E.
    eexists; split; [reflexivity|].
    rewrite forallb_app, Ht. destruct (hasWifi g); reflexivity.
Qed.

(** C9: the enabled flag never goes from false to true.  Once [enableOTA]
    is false, a poll tick returns at once: it leaves the globals as they
    are and makes no call at all; and however many passes of [loop] follow,
    the globals stay the same (so the flag stays false), the board does not
    reboot, and no pass fetches metadata, reports, downloads or applies. *)
Theorem enableOTA_stays_cleared (g : Globals) :
  enableOTA g = false ->
  (forall env, tick env g = (Normal tt, g, [])) /\
  (forall envs env,
      let r := loops envs env g in
      flow_of r = Normal tt /\
      globals_of r = g /\
      occurs is_fetch (events_of r) = false /\
      occurs is_report (events_of r) = false /\
      occurs is_download (events_of r) = false /\
      occurs is_apply (events_of r) = false /\
      occurs is_reboot (events_of r) = false).
Proof.
  intros H. split.
  - intros env. now apply tick_disabled.
  - intros envs env.
    destruct (loops_disabled envs env g H) as [t [E Ht]].
    cbv zeta. rewrite E. cbn [flow_of globals_of events_of fst snd].
    assert (Q : forall p : Event -> bool,
               (forall e, idle_event e = true -> p e = false) ->
               occurs p t = false).
    { intros p Hp. unfold occurs.
      destruct (existsb p t) eqn:X; [|reflexivity].
      apply existsb_exists in X. destruct X as [e [He Pe]].
      rewrite forallb_forall in Ht. rewrite (Hp e (Ht e He)) in Pe.
      discriminate. }
    repeat split; apply Q; intros [] I; try reflexivity; discriminate.
Qed.

Lemma enableOTA_stays_cleared_witness :
  enableOTA parked = false /\
  (forall env, tick env parked = (Normal tt, parked, [])).
Proof.
  split; [reflexivity|].
  apply (enableOTA_stays_cleared parked). reflexivity.
Defined.

(** ** The https check *)

Lemma uri_is_https_intro (u : string) :
  6 <= strlen u -> strncmp "https:" u 6 = 0 -> uri_is_https u = true.
Proof.
  intros L E. unfold uri_is_https. rewrite E.
  apply Z.ltb_ge in L. rewrite L. reflexivity.
Qed.




(** ** Which failures clear the flag *)




(** ** A candidate that is not newer *)

(** C3, as stated, fails: the candidate's version does not compare greater
    than the running one, its package URI is not https, and the tick makes
    the [URINotHTTPS] error report: the URI is tested before the version. *)
Lemma stale_version_silent_counterexample :
  let env := answers (Some stale_insecure_candidate) (-1) (0, 0) 0 in
  let r := tick env enabled in
  fwVersion stale_insecure_candidate = Some "0.9.0" /\
  IoTHubClient_FwVersionCompare_ret env "0.9.0" currentFirmwareVersion <= 0 /\
  occurs is_error (events_of r) = true /\
  occurs (is_failure "URINotHTTPS") (events_of r) = true.
Proof. repeat split. cbn. lia. Qed.

(** C3, amended: for a candidate whose version does not compare greater
    than the running firmware's, the tick makes no download and no apply
    call and does not reboot.  It makes no report at all when the package
    URI is missing or passes the https check; when the package URI is
    there and fails the https check, which is made before the versions are
    compared, its one report is the [URINotHTTPS] error report. *)
Theorem stale_version_not_installed
    (env : Collaborators) (g : Globals) (fi : FW_INFO) (v : string) :
  enableOTA g = true ->
  IoTHubClient_GetLatestFwInfo_ret env = Some fi ->
  fwVersion fi = Some v ->
  IoTHubClient_FwVersionCompare_ret env v currentFirmwareVersion <= 0 ->
  let r := tick env g in
  occurs is_download (events_of r) = false /\
  occurs is_apply (events_of r) = false /\
  occurs is_reboot (events_of r) = false /\
  match fwPackageURI fi with
  | Some u =>
      if uri_is_https u then occurs is_report (events_of r) = false
      else count is_report (events_of r) = 1%nat /\
           count (is_failure "URINotHTTPS") (events_of r) = 1%nat
  | None => occurs is_report (events_of r) = false
  end.
Proof.
  intros H L V S. outcomes env g.
  all: try match goal with
       | K : lacks_version_or_uri ?f = true, V' : fwVersion ?f = Some _ |- _ =>
           unfold lacks_version_or_uri in K; rewrite V' in K;
           destruct (fwPackageURI f); [discriminate K|]
       end.
  all: repeat match goal with
       | K : fwPackageURI _ = Some _ |- _ => rewrite K
       | K : uri_is_https _ = _ |- _ => rewrite K
       end.
  all: repeat split.
Qed.

Lemma stale_version_not_installed_witness :
  let r := tick (answers (Some stale_candidate) (-1) (0, 0) 0) enabled in
  occurs is_download (events_of r) = false /\
  occurs is_apply (events_of r) = false /\
  occurs is_reboot (events_of r) = false /\
  occurs is_report (events_of r) = false.
Proof.
  apply (stale_version_not_installed
           (answers (Some stale_candidate) (-1) (0, 0) 0) enabled
           stale_candidate "0.9.0").
  - reflexivity.
  - reflexivity.
  - reflexivity.
  - cbn. lia.
Defined.

(** ** The outcome of the download *)

(** C5, as stated, fails: the candidate announces a size of 0, the download
    returns 0, so the byte count equals the expected size; the tick reports
    [DownloadFailed] and does not go on to the verification. *)
Lemma download_classified_counterexample :
  let env := answers (Some empty_candidate) 1 (0, 0) 0 in
  let r := tick env enabled in
  Downloads env enabled empty_candidate "1.1.0" "https://x" /\
  fst (OTADownloadFirmware_ret env "https://x") = fwSize empty_candidate /\
  occurs (is_failure "DownloadFailed") (events_of r) = true /\
  occurs is_finished_download (events_of r) = false.
Proof. repeat split. Qed.

(** C5, amended: on a tick that gets to the download, with [n] the byte
    count returned: [n] equal to 0 or -1 gives the [DownloadFailed] report;
    -2 gives [DeviceError]; any other [n] different from the expected size
    gives [FileSizeNotMatch]; in each case this is the only error report.
    The tick goes on to the verification exactly when [n] equals the
    expected size and is none of 0, -1 and -2. *)
Theorem download_classified
    (env : Collaborators) (g : Globals) (fi : FW_INFO) (v u : string) (n c : Z) :
  Downloads env g fi v u ->
  OTADownloadFirmware_ret env u = (n, c) ->
  let r := tick env g in
  (n = 0 \/ n = -1 ->
   count is_error (events_of r) = 1%nat /\
   count (is_failure "DownloadFailed") (events_of r) = 1%nat) /\
  (n = -2 ->
   count is_error (events_of r) = 1%nat /\
   count (is_failure "DeviceError") (events_of r) = 1%nat) /\
  (n <> 0 -> n <> -1 -> n <> -2 -> n <> fwSize fi ->
   count is_error (events_of r) = 1%nat /\
   count (is_failure "FileSizeNotMatch") (events_of r) = 1%nat) /\
  (occurs is_finished_download (events_of r) = true <->
   n = fwSize fi /\ n <> 0 /\ n <> -1 /\ n <> -2).
Proof.
  intros D E. outcomes env g.
  all: unfold crc_events; try destruct (fwPackageCheckValue _).
  all: repeat split; intros;
    first [ reflexivity | lia | discriminate | exfalso; intuition lia ].
Qed.

Lemma download_classified_witness :
  let r := tick short_answers enabled in
  (100 <> 0 -> 100 <> -1 -> 100 <> -2 -> 100 <> fwSize short_candidate ->
   count is_error (events_of r) = 1%nat /\
   count (is_failure "FileSizeNotMatch") (events_of r) = 1%nat) /\
  (occurs is_finished_download (events_of r) = true <->
   100 = fwSize short_candidate /\ 100 <> 0 /\ 100 <> -1 /\ 100 <> -2).
Proof.
  split;
    apply (download_classified short_answers enabled
             short_candidate "1.1.0" "https://x" 100 0 short_downloads eq_refl).
Defined.

(** ** Verification and the guard of the apply call *)

(** C2: the apply call is guarded by the size and the checksum.
    (1) A tick calls [OTAApplyNewFirmware] only if it got to the download,
    the download returned a byte count equal to the expected size, and the
    candidate has no check value or the checksum equals the check value read
    in base 16.
    (2) On a tick that gets to the download, a byte count that deviates
    gives no apply call and one error report, with the substatus of the
    deviation: [DownloadFailed] for 0 and -1, [DeviceError] for -2, and
    [FileSizeNotMatch] for any other count different from the expected
    size.
    (3) On such a tick, a checksum different from the candidate's check value
    gives no apply call and one error report, which is [VerifyFailed]
    whenever the byte count passed the checks on the size. *)
Theorem apply_guarded (env : Collaborators) (g : Globals) :
  let r := tick env g in
  (occurs is_apply (events_of r) = true ->
   exists fi v u n c,
     Downloads env g fi v u /\
     OTADownloadFirmware_ret env u = (n, c) /\
     n = fwSize fi /\
     (fwPackageCheckValue fi = None \/
      exists h, fwPackageCheckValue fi = Some h /\ to_uint16 c = strtoul h 16)) /\
  (forall fi v u n c,
     Downloads env g fi v u ->
     OTADownloadFirmware_ret env u = (n, c) ->
     (n = 0 \/ n = -1 ->
      occurs is_apply (events_of r) = false /\
      count is_error (events_of r) = 1%nat /\
      count (is_failure "DownloadFailed") (events_of r) = 1%nat) /\
     (n = -2 ->
      occurs is_apply (events_of r) = false /\
      count is_error (events_of r) = 1%nat /\
      count (is_failure "DeviceError") (events_of r) = 1%nat) /\
     (n <> 0 -> n <> -1 -> n <> -2 -> n <> fwSize fi ->
      occurs is_apply (events_of r) = false /\
      count is_error (events_of r) = 1%nat /\
      count (is_failure "FileSizeNotMatch") (events_of r) = 1%nat)) /\
  (forall fi v u n c h,
     Downloads env g fi v u ->
     OTADownloadFirmware_ret env u = (n, c) ->
     fwPackageCheckValue fi = Some h ->
     to_uint16 c <> strtoul h 16 ->
     occurs is_apply (events_of r) = false /\
     count is_error (events_of r) = 1%nat /\
     (n = fwSize fi -> n <> 0 -> n <> -1 -> n <> -2 ->
      count (is_failure "VerifyFailed") (events_of r) = 1%nat)).
Proof.
  cbv zeta. split; [|split].
  - pose proof (tick_outcome env g) as T. revert T.
    generalize (tick env g). intros r T A.
    destruct T as [| | | | | | | |fi v u n c h V K N|fi v u n c V P R|fi v u n c V P R];
      try discriminate A;
      try (unfold crc_events in A; destruct (fwPackageCheckValue _); discriminate A).
    all: exists fi, v, u, n, c; destruct V as [D E F S];
      split; [exact D | split; [exact E | split; [exact S |]]].
    all: unfold crc_passes in P; destruct (fwPackageCheckValue fi) as [h|];
      [ right; exists h; split; [reflexivity | exact P] | left; reflexivity ].
  - intros fi v u n c D E. outcomes env g.
    all: unfold crc_events; try destruct (fwPackageCheckValue _).
    all: repeat split; intros; first [reflexivity | conflict].
  - intros fi v u n c h D E K N. outcomes env g.
    all: repeat split; intros; first [ reflexivity | lia ].
Qed.

Lemma apply_guarded_witness :
  (occurs is_apply (events_of (tick good_answers enabled)) = true /\
   exists fi v u n c,
     Downloads good_answers enabled fi v u /\
     OTADownloadFirmware_ret good_answers u = (n, c) /\
     n = fwSize fi /\
     (fwPackageCheckValue fi = None \/
      exists h, fwPackageCheckValue fi = Some h /\ to_uint16 c = strtoul h 16)) /\
  (to_uint16 6698 <> strtoul "1A2B" 16 /\
   occurs is_apply (events_of (tick corrupt_answers enabled)) = false /\
   count (is_failure "VerifyFailed") (events_of (tick corrupt_answers enabled)) = 1%nat) /\
  (occurs is_apply (events_of (tick short_answers enabled)) = false /\
   count is_error (events_of (tick short_answers enabled)) = 1%nat /\
   count (is_failure "FileSizeNotMatch") (events_of (tick short_answers enabled)) = 1%nat).
Proof.
  split; [|split].
  - split; [reflexivity|].
    apply (proj1 (apply_guarded good_answers enabled)). reflexivity.
  - assert (N : to_uint16 6698 <> strtoul "1A2B" 16) by (vm_compute; discriminate).
    split; [exact N|].
    pose proof (proj2 (proj2 (apply_guarded corrupt_answers enabled))
                  good_candidate "1.1.0" "https://x/fw.bin" 100 6698 "1A2B"
                  corrupt_downloads eq_refl eq_refl N) as [A [_ V]].
    split; [exact A|]. apply V; [reflexivity | lia | lia | lia].
  - apply (proj1 (proj2 (apply_guarded short_answers enabled))
             short_candidate "1.1.0" "https://x" 100 0 short_downloads eq_refl);
      cbn; lia.
Defined.

(** A checksum that differs from the check value ends the tick with the
    [VerifyFailed] report and without an apply call. *)
Lemma crc_mismatch
    (env : Collaborators) (g : Globals) (fi : FW_INFO) (v u h : string) (n c : Z) :
  Verifies env g fi v u n c ->
  fwPackageCheckValue fi = Some h ->
  to_uint16 c <> strtoul h 16 ->
  let r := tick env g in
  count is_error (events_of r) = 1%nat /\
  count (is_failure "VerifyFailed") (events_of r) = 1%nat /\
  occurs is_apply (events_of r) = false.
Proof.
  intros V K N. outcomes env g. repeat split.
Qed.

(** C6: on a tick that gets to the CRC check, with [n] the size and [c] the
    checksum the download left: when the candidate has no check value, the
    check is skipped (nothing is verified, no failure is reported) and the
    tick calls the apply primitive with [n] and [c]; when there is a check
    value and the checksum differs from its value in base 16, the tick makes
    the [VerifyFailed] report, its only error report, and does not call the
    apply primitive; when the two are equal, no failure of the check is
    reported and the tick calls the apply primitive with [n] and [c]. *)
Theorem checksum_verified
    (env : Collaborators) (g : Globals) (fi : FW_INFO) (v u : string) (n c : Z) :
  Verifies env g fi v u n c ->
  let r := tick env g in
  (fwPackageCheckValue fi = None ->
   occurs is_verifying (events_of r) = false /\
   occurs (is_failure "VerifyFailed") (events_of r) = false /\
   filter is_apply (events_of r) = [Ev_OTAApplyNewFirmware n (to_uint16 c)]) /\
  (forall h, fwPackageCheckValue fi = Some h ->
     to_uint16 c <> strtoul h 16 ->
     count is_error (events_of r) = 1%nat /\
     count (is_failure "VerifyFailed") (events_of r) = 1%nat /\
     occurs is_apply (events_of r) = false) /\
  (forall h, fwPackageCheckValue fi = Some h ->
     to_uint16 c = strtoul h 16 ->
     occurs (is_failure "VerifyFailed") (events_of r) = false /\
     filter is_apply (events_of r) = [Ev_OTAApplyNewFirmware n (to_uint16 c)]).
Proof.
  intros V. outcomes env g.
  all: unfold crc_events, crc_passes in *.
  all: repeat split; intros;
    repeat match goal with
    | K : fwPackageCheckValue _ = _ |- _ => rewrite K in *
    end;
    cbv beta iota in *;
    first [ reflexivity | congruence | discriminate ].
Qed.

Lemma checksum_verified_witness :
  let r := tick good_answers enabled in
  occurs (is_failure "VerifyFailed") (events_of r) = false /\
  filter is_apply (events_of r) = [Ev_OTAApplyNewFirmware 100 (to_uint16 6699)].
Proof.
  apply (checksum_verified good_answers enabled good_candidate
           "1.1.0" "https://x/fw.bin" 100 6699 good_verifies) with (h := "1A2B");
    reflexivity.
Defined.

(** C10: the checksum is a [uint16_t] and the check value is read by
    [strtoul] in base 16 as an [unsigned long]: on a tick that gets to the
    CRC check, a check value that reads as more than 0xFFFF makes the check
    fail whatever checksum the download left; the tick makes the
    [VerifyFailed] report, its only error report, and does not call the
    apply primitive. *)
Theorem wide_check_value_fails
    (env : Collaborators) (g : Globals) (fi : FW_INFO) (v u h : string) (n c : Z) :
  Verifies env g fi v u n c ->
  fwPackageCheckValue fi = Some h ->
  65535 < strtoul h 16 ->
  let r := tick env g in
  to_uint16 c <> strtoul h 16 /\
  count is_error (events_of r) = 1%nat /\
  count (is_failure "VerifyFailed") (events_of r) = 1%nat /\
  occurs is_apply (events_of r) = false.
Proof.
  intros V K W.
  assert (N : to_uint16 c <> strtoul h 16)
    by (pose proof (to_uint16_range c); lia).
  split; [exact N|].
  now apply (crc_mismatch env g fi v u h n c).
Qed.

Lemma wide_check_value_fails_witness :
  let r := tick wide_answers enabled in
  to_uint16 15437 <> strtoul "1A2B3C4D" 16 /\
  count is_error (events_of r) = 1%nat /\
  count (is_failure "VerifyFailed") (events_of r) = 1%nat /\
  occurs is_apply (events_of r) = false.
Proof.
  apply (wide_check_value_fails wide_answers enabled
           wide_candidate "1.1.0" "https://x/fw.bin" "1A2B3C4D" 100 15437
           wide_verifies).
  - reflexivity.
  - vm_compute. reflexivity.
Defined.

(** ** The hand-over of the channel around the download *)

(** C8: on a tick that gets to the download, the calls made are some
    calls, none of them a report, a clock reading, a download or a call on
    the channel, and then, one right after the other: the clock is read;
    the status [OTA_STATUS_DOWNLOADING] is reported (the report and the
    [DevKitMQTTClient_Check] that ends [ReportOTAStatus]) with the start
    time made of that reading by [gmtime] and [strftime]; the channel is
    closed; the download is called; the channel is opened again.  Whatever
    the download returned, the calls that classify it and report on it
    come after that, and there is no other download. *)
Theorem channel_handed_over
    (env : Collaborators) (g : Globals) (fi : FW_INFO) (v u : string) :
  Downloads env g fi v u ->
  let r := tick env g in
  let stamp := startTimeStr_of env in
  exists m before after,
    events_of r =
      before
      ++ [Ev_time; Ev_IoTHubClient_ReportOTAStatus m; Ev_DevKitMQTTClient_Check;
          Ev_DevKitMQTTClient_Close; Ev_OTADownloadFirmware u;
          Ev_DevKitMQTTClient_Init true]
      ++ after /\
    occurs is_report before = false /\
    occurs is_time before = false /\
    occurs is_download before = false /\
    occurs is_channel before = false /\
    status_of m = Some OTA_STATUS_DOWNLOADING /\
    startTime_of m = Some stamp /\
    (timestamp_fits (time_ret env 0) ->
     stamp = strftime_chars time_format (gmtime (time_ret env 0))) /\
    occurs is_download after = false /\
    occurs is_channel after = false.
Proof.
  intros D.
  assert (W := timestamp_written (uninitialized env) (time_ret env 0)).
  outcomes env g.
  all: match goal with
       | |- context [download_events ?e ?v' ?u'] =>
           exists (status_map v' OTA_STATUS_DOWNLOADING u' (startTimeStr_of e) ""),
             (announce_events v' u')
       end.
  all: eexists; split;
    [ unfold download_events; rewrite <- app_assoc; reflexivity |].
  all: unfold crc_events; try destruct (fwPackageCheckValue _).
  all: repeat split; exact W.
Qed.

Lemma channel_handed_over_witness :
  exists m before after,
    events_of (tick corrupt_answers enabled) =
      before
      ++ [Ev_time; Ev_IoTHubClient_ReportOTAStatus m; Ev_DevKitMQTTClient_Check;
          Ev_DevKitMQTTClient_Close; Ev_OTADownloadFirmware "https://x/fw.bin";
          Ev_DevKitMQTTClient_Init true]
      ++ after /\
    occurs is_report before = false /\
    status_of m = Some OTA_STATUS_DOWNLOADING /\
    startTime_of m = Some "2017-07-14T02:40:00.0000000Z".
Proof.
  destruct (channel_handed_over corrupt_answers enabled good_candidate
              "1.1.0" "https://x/fw.bin" corrupt_downloads)
    as (m & before & after & E & R & _ & _ & _ & S & T & _).
  exists m, before, after. repeat split; assumption.
Defined.

(** ** A successful update *)

(** C7: when every stage succeeds (the tick gets to the CRC check, the
    check lets the checksum through, the apply primitive returns 0) and the
    two time stamps fit their arrays, the tick ends in the reboot and has
    made exactly one apply call, exactly one report of status
    [OTA_STATUS_APPLYING] and exactly one reboot call, in this order, the
    reboot being the last call of all; it has made no error report; and the
    [OTA_STATUS_APPLYING] report carries a start time and an end time that
    are not empty. *)
Theorem update_applied_once
    (env : Collaborators) (g : Globals) (fi : FW_INFO) (v u : string) (n c : Z) :
  Verifies env g fi v u n c ->
  crc_passes fi c ->
  OTAApplyNewFirmware_ret env n (to_uint16 c) = 0 ->
  timestamp_fits (time_ret env 0) ->
  timestamp_fits (time_ret env 1) ->
  let r := tick env g in
  flow_of r = Rebooted /\
  count is_apply (events_of r) = 1%nat /\
  count (is_status OTA_STATUS_APPLYING) (events_of r) = 1%nat /\
  count is_reboot (events_of r) = 1%nat /\
  count is_error (events_of r) = 0%nat /\
  (exists i j k,
     position is_apply (events_of r) = Some i /\
     position (is_status OTA_STATUS_APPLYING) (events_of r) = Some j /\
     position is_reboot (events_of r) = Some k /\
     (i < j < k)%nat /\ S k = List.length (events_of r)) /\
  (forall m,
     In (Ev_IoTHubClient_ReportOTAStatus m) (events_of r) ->
     status_of m = Some OTA_STATUS_APPLYING ->
     exists s e,
       startTime_of m = Some s /\ endTime_of m = Some e /\ s <> "" /\ e <> "").
Proof.
  intros V P A F0 F1.
  assert (N0 := timestamp_nonempty (uninitialized env) (time_ret env 0) F0).
  assert (N1 := timestamp_nonempty (uninitialized env) (time_ret env 1) F1).
  clear F0 F1. outcomes env g.
  all: unfold crc_events; destruct (fwPackageCheckValue _).
  all: repeat split; try reflexivity.
  all: try (eexists _, _, _; repeat split; cbn; lia).
  all: intros m I S; cbn in I;
    repeat (destruct I as [I | I]; [first [discriminate I | injection I as <-] |]);
    try destruct I; try discriminate S.
  all: eexists _, _; repeat split; try reflexivity; assumption.
Qed.

Lemma update_applied_once_witness :
  let r := tick good_answers enabled in
  flow_of r = Rebooted /\
  count is_apply (events_of r) = 1%nat /\
  count (is_status OTA_STATUS_APPLYING) (events_of r) = 1%nat /\
  count is_reboot (events_of r) = 1%nat /\
  count is_error (events_of r) = 0%nat.
Proof.
  destruct (update_applied_once good_answers enabled good_candidate
              "1.1.0" "https://x/fw.bin" 100 6699 good_verifies)
    as (R & A & S & B & E & _).
  - reflexivity.
  - reflexivity.
  - apply timestamp_fits_32bit. cbn. lia.
  - apply timestamp_fits_32bit. cbn. lia.
  - repeat split; assumption.
Defined.

(** ** The status reporter *)

(** X1: [ReportOTAStatus] creates a map in the global [OTAStatusMap],
    sends it, destroys it and then services the MQTT client once.  It
    leaves [hasWifi], [enableOTA] and [fwInfo] as they are, and leaves in
    [OTAStatusMap] the pointer to the map it destroyed, whatever the
    variable held before.  The map sent holds [type] = [IoTDevKit]; for
    each of the six arguments it holds the argument's key with the
    argument's value when the argument is not null, and does not hold the
    key when it is null; it has no other entry. *)
Theorem ReportOTAStatus_entries
    (cur pend st sub start stop : option string)
    (env : Collaborators) (g : Globals) :
  exists m,
    ReportOTAStatus cur pend st sub start stop env g =
      (Normal tt, reported g,
       [Ev_IoTHubClient_ReportOTAStatus m; Ev_DevKitMQTTClient_Check]) /\
    OTAStatusMap (reported g) = Handle_destroyed /\
    Map_GetValueFromKey m "type" = Some "IoTDevKit" /\
    Map_GetValueFromKey m OTA_CURRENT_FW_VERSION = cur /\
    Map_GetValueFromKey m OTA_PENDING_FW_VERSION = pend /\
    Map_GetValueFromKey m OTA_FW_UPDATE_STATUS = st /\
    Map_GetValueFromKey m OTA_FW_UPDATE_SUBSTATUS = sub /\
    Map_GetValueFromKey m OTA_LAST_FW_UPDATE_STARTTIME = start /\
    Map_GetValueFromKey m OTA_LAST_FW_UPDATE_ENDTIME = stop /\
    List.length m = S (given [cur; pend; st; sub; start; stop]).
Proof.
  destruct g as [w en p h].
  destruct cur, pend, st, sub, start, stop;
    eexists; (split; [reflexivity | repeat split]).
Qed.

(** X2: [OTAUpdateFailed(msg)] reports the status [OTA_STATUS_ERROR] with
    [msg] as substatus, empty start and end times and the version of the
    firmware info as pending version (which leaves [OTAStatusMap] with the
    pointer to the destroyed map), clears [enableOTA], prints the message
    on the screen and logs it.  When there is no firmware info
    ([fwInfo] is null) the pending version reported is the empty string
    and the log names the firmware [<unknown>]. *)
Theorem OTAUpdateFailed_run
    (msg : string) (env : Collaborators) (g : Globals) :
  match fwInfo g with
  | None =>
      OTAUpdateFailed msg env g =
        (Normal tt, cleared (reported g),
         [Ev_IoTHubClient_ReportOTAStatus (status_map "" OTA_STATUS_ERROR msg "" "");
          Ev_DevKitMQTTClient_Check;
          Ev_Screen_print 1 "OTA failed:";
          Ev_Screen_print 2 msg;
          Ev_Screen_print 3 " ";
          Ev_LogInfo ("Failed to update firmware <unknown>: " ++ msg
                      ++ ", disable OTA update.")%string])
  | Some fi =>
      forall v, fwVersion fi = Some v ->
        OTAUpdateFailed msg env g =
          (Normal tt, cleared (reported g), failed_events v msg)
  end.
Proof.
  destruct g as [w en [fi|] h]; cbn [fwInfo].
  - intros v V. unfold OTAUpdateFailed. cbn. rewrite V. reflexivity.
  - reflexivity.
Qed.

(** ** The https check *)



(** ** Start-up *)

(** X4: [InitWifi] sets [hasWifi] to whether [WiFi.begin()] returned
    [WL_CONNECTED] and changes no other global; it asks for the IP address
    exactly when the board is connected, and shows it on line 1 of the
    screen, where otherwise the text [No Wi-Fi] goes. *)
Theorem InitWifi_run (env : Collaborators) (g : Globals) :
  let r := call InitWifi env g in
  let up := WiFi_begin_ret env =? WL_CONNECTED in
  flow_of r = Normal tt /\
  globals_of r = with_wifi g up /\
  occurs is_localIP (events_of r) = up /\
  printed 1 (events_of r) =
    [if up then WiFi_localIP_ret env else ("No Wi-Fi" ++ CRLF ++ " ")%string].
Proof.
  cbv zeta. unfold call, InitWifi.
  cbv beta iota zeta delta
    [bind ret emit ask put set_hasWifi Screen_print WiFi_begin WiFi_localIP app].
  destruct (WiFi_begin_ret env =? WL_CONNECTED); repeat split.
Qed.

Lemma occurs_app (p : Event -> bool) (a b : list Event) :
  occurs p (a ++ b) = occurs p a || occurs p b.
Proof. apply existsb_app. Qed.

Lemma waited_app (a b : list Event) : waited (a ++ b) = waited a + waited b.
Proof.
  unfold waited. induction a as [|e a IH]; cbn [app fold_right]; [reflexivity | lia].
Qed.

Lemma occurs_delays (p : Event -> bool) (k : nat) :
  p (Ev_delay 1000) = false -> occurs p (repeat (Ev_delay 1000) k) = false.
Proof.
  intros Hp. induction k as [|k IH]; [reflexivity|].
  unfold occurs in *. cbn [repeat existsb]. rewrite Hp, IH. reflexivity.
Qed.

Lemma waited_delays (k : nat) :
  waited (repeat (Ev_delay 1000) k) = 1000 * Z.of_nat k.
Proof.
  induction k as [|k IH]; [reflexivity|].
  unfold waited in *. cbn [repeat fold_right delay_of]. rewrite IH. lia.
Qed.

(** X5: on a board that does not join the network, [setup] returns before
    it touches the MQTT client, and every pass of [loop] only waits one
    second: in a run of [setup] and any number of passes there is no call on
    the MQTT client, no fetch of firmware info and no report; the globals
    end as they started, but for [hasWifi], which is false; and the run has
    waited 1000 ms for each pass. *)
Theorem offline_sketch_idles (env0 : Collaborators) (envs : list Collaborators) :
  WiFi_begin_ret env0 <> WL_CONNECTED ->
  let r := sketch env0 envs in
  flow_of r = Normal tt /\
  globals_of r = initial /\
  occurs is_mqtt (events_of r) = false /\
  occurs is_fetch (events_of r) = false /\
  occurs is_report (events_of r) = false /\
  waited (events_of r) = 1000 * Z.of_nat (List.length envs).
Proof.
  intros W. apply Z.eqb_neq in W.
  assert (L : forall envs env,
             loops envs env initial =
               (Normal tt, initial, repeat (Ev_delay 1000) (List.length envs))).
  { induction envs0 as [|e envs0 IH]; intros env; [reflexivity|].
    cbn [loops]. unfold bind at 1.
    change (call loop e initial) with (Normal tt, initial, [Ev_delay 1000]).
    cbv beta iota. rewrite IH. reflexivity. }
  cbv zeta.
  assert (S : call setup env0 initial =
              (Normal tt, initial,
               [Ev_Screen_init; Ev_Screen_print 0 "IoT DevKit";
                Ev_Screen_print 2 "Initializing..."; Ev_Screen_print 3 " > Serial";
                Ev_Serial_begin 115200; Ev_Screen_print 3 " > WiFi";
                Ev_Screen_print 2 "Connecting..."; Ev_WiFi_begin;
                Ev_Screen_print 1 ("No Wi-Fi" ++ CRLF ++ " ")%string])).
  { unfold call, setup, InitWifi.
    cbv beta iota zeta delta
      [bind ret return_ emit ask get put when set_hasWifi call
       Screen_init Screen_print Serial_begin WiFi_begin WiFi_localIP app].
    rewrite W. reflexivity. }
  assert (R : sketch env0 envs =
              (Normal tt, initial,
               [Ev_Screen_init; Ev_Screen_print 0 "IoT DevKit";
                Ev_Screen_print 2 "Initializing..."; Ev_Screen_print 3 " > Serial";
                Ev_Serial_begin 115200; Ev_Screen_print 3 " > WiFi";
                Ev_Screen_print 2 "Connecting..."; Ev_WiFi_begin;
                Ev_Screen_print 1 ("No Wi-Fi" ++ CRLF ++ " ")%string]
               ++ repeat (Ev_delay 1000) (List.length envs))).
  { unfold sketch, bind. rewrite S, L. reflexivity. }
  rewrite R. cbn [flow_of globals_of events_of fst snd].
  rewrite !occurs_app, waited_app, waited_delays, !occurs_delays by reflexivity.
  repeat split.
Qed.

Lemma offline_sketch_idles_witness :
  waited (events_of (sketch (offline good_answers) [good_answers; good_answers]))
  = 1000 * Z.of_nat 2.
Proof.
  apply (offline_sketch_idles (offline good_answers) [good_answers; good_answers]).
  cbn. discriminate.
Defined.

(** X6: on a board that joins the network, [setup] sets [hasWifi], leaves
    [enableOTA] and [fwInfo] as they are (and [OTAStatusMap] with the
    pointer to the map of its report), opens the MQTT client before it
    reports, and makes exactly one report: the status [OTA_STATUS_CURRENT]
    for the running version, with an empty pending version and an empty
    substatus, and with no start time and no end time at all (the two
    arguments are null). *)
Theorem online_setup_reports_current (env : Collaborators) (g : Globals) :
  WiFi_begin_ret env = WL_CONNECTED ->
  let r := call setup env g in
  flow_of r = Normal tt /\
  globals_of r = reported (with_wifi g true) /\
  reports (events_of r) =
    [[("type", "IoTDevKit");
      (OTA_CURRENT_FW_VERSION, currentFirmwareVersion);
      (OTA_PENDING_FW_VERSION, "");
      (OTA_FW_UPDATE_STATUS, OTA_STATUS_CURRENT);
      (OTA_FW_UPDATE_SUBSTATUS, "")]] /\
  (exists i j,
     position is_init (events_of r) = Some i /\
     position is_report (events_of r) = Some j /\ (i < j)%nat).
Proof.
  intros W. cbv zeta. unfold call, setup, InitWifi, ReportOTAStatus.
  cbv beta iota zeta delta
    [bind ret return_ emit ask get put when set_hasWifi call
     Screen_init Screen_print Serial_begin WiFi_begin WiFi_localIP
     DevKitMQTTClient_SetOption DevKitMQTTClient_Init DevKitMQTTClient_Check
     IoTHubClient_ReportOTAStatus LogInfo app].
  rewrite W. destruct g as [w en p h].
  repeat split. eexists _, _.
  split; [reflexivity | split; [reflexivity | lia]].
Qed.

Lemma online_setup_reports_current_witness :
  globals_of (call setup good_answers initial) = reported (with_wifi initial true).
Proof.
  apply (online_setup_reports_current good_answers initial). reflexivity.
Defined.

(** ** A pass of [loop] *)

Lemma loop_with_wifi (env : Collaborators) (g : Globals) :
  hasWifi g = true ->
  call loop env g =
    match tick env g with
    | (Rebooted, g', t) => (Rebooted, g', Ev_DevKitMQTTClient_Check :: t)
    | (Returned, g', t) => (Normal tt, g', Ev_DevKitMQTTClient_Check :: t)
    | (Normal _, g', t) =>
        (Normal tt, g',
         Ev_DevKitMQTTClient_Check
         :: t ++ [Ev_LogInfo "No new firmware..."; Ev_delay 1000])
    end.
Proof.
  intros W. unfold call at 1, loop.
  cbv beta iota zeta delta
    [bind get when emit ret DevKitMQTTClient_Check LogInfo delay].
  rewrite W. change (call CheckNewFirmware env g) with (tick env g).
  destruct (tick env g) as [[[[]| |] g'] t];
    cbn [app]; rewrite <- ?app_assoc; reflexivity.
Qed.

(** A call hides the [return] of the callee. *)
Lemma tick_not_returned (env : Collaborators) (g : Globals) :
  flow_of (tick env g) <> Returned.
Proof.
  unfold tick, call.
  destruct (CheckNewFirmware env g) as [[[[]| |] g'] t]; discriminate.
Qed.

Lemma idle_quiet (p : Event -> bool) (t : list Event) :
  (forall e, idle_event e = true -> p e = false) ->
  forallb idle_event t = true -> occurs p t = false.
Proof.
  intros Hp Ht. unfold occurs.
  destruct (existsb p t) eqn:X; [|reflexivity].
  apply existsb_exists in X. destruct X as [e [He Pe]].
  rewrite forallb_forall in Ht. rewrite (Hp e (Ht e He)) in Pe. discriminate.
Qed.

(** X7: a pass of [loop] on a connected board services the MQTT client,
    then checks for new firmware.  When the check comes back, whatever it
    did (also after it reported a failure), the pass logs
    [No new firmware...] and waits one second; when the check reboots the
    board, the reboot is the last call of the pass.  The globals after the
    pass are those after the check. *)
Theorem loop_pass (env : Collaborators) (g : Globals) :
  hasWifi g = true ->
  let r := call loop env g in
  let t := tick env g in
  globals_of r = globals_of t /\
  (flow_of t = Rebooted ->
   flow_of r = Rebooted /\
   events_of r = Ev_DevKitMQTTClient_Check :: events_of t) /\
  (flow_of t <> Rebooted ->
   flow_of r = Normal tt /\
   events_of r =
     Ev_DevKitMQTTClient_Check
     :: events_of t ++ [Ev_LogInfo "No new firmware..."; Ev_delay 1000]).
Proof.
  intros W. cbv zeta. rewrite (loop_with_wifi env g W).
  pose proof (tick_not_returned env g) as N.
  destruct (tick env g) as [[[[]| |] g'] t];
    repeat split; intros;
    first [reflexivity | discriminate | congruence | exfalso; now apply N].
Qed.

Lemma loop_pass_witness :
  globals_of (call loop corrupt_answers enabled)
  = globals_of (tick corrupt_answers enabled).
Proof.
  apply (loop_pass corrupt_answers enabled). reflexivity.
Defined.

(** X9: one reported failure ends the updates.  After a tick that made an
    error report, however many passes of [loop] follow and whatever the
    service offers, none of them fetches firmware info, reports, downloads,
    applies or reboots. *)
Theorem failure_ends_updates
    (env : Collaborators) (g : Globals)
    (envs : list Collaborators) (env' : Collaborators) :
  occurs is_error (events_of (tick env g)) = true ->
  let r := loops envs env' (globals_of (tick env g)) in
  flow_of r = Normal tt /\
  occurs is_fetch (events_of r) = false /\
  occurs is_report (events_of r) = false /\
  occurs is_download (events_of r) = false /\
  occurs is_apply (events_of r) = false /\
  occurs is_reboot (events_of r) = false.
Proof.
  intros F.
  assert (D : enableOTA (globals_of (tick env g)) = false).
  { revert F. outcomes env g; intros F; try reflexivity;
      unfold crc_events in F; try destruct (fwPackageCheckValue _);
      discriminate F. }
  destruct (loops_disabled envs env' _ D) as [t [E Ht]].
  cbv zeta. rewrite E. cbn [flow_of globals_of events_of fst snd].
  repeat split; apply idle_quiet; try assumption;
    intros [] I; try reflexivity; discriminate.
Qed.

Lemma failure_ends_updates_witness :
  occurs is_fetch
    (events_of (loops [good_answers] good_answers
                  (globals_of (tick corrupt_answers enabled)))) = false.
Proof.
  apply (failure_ends_updates corrupt_answers enabled [good_answers] good_answers).
  reflexivity.
Defined.

(** ** What every tick keeps *)

(** X10: a tick never changes [hasWifi], and a tick that starts enabled
    leaves in [fwInfo] what [IoTHubClient_GetLatestFwInfo] returned, a null
    pointer included, however the tick ends. *)
Theorem tick_globals (env : Collaborators) (g : Globals) :
  let r := tick env g in
  hasWifi (globals_of r) = hasWifi g /\
  (enableOTA g = true ->
   fwInfo (globals_of r) = IoTHubClient_GetLatestFwInfo_ret env).
Proof.
  outcomes env g.
  all: split; [reflexivity | intros K; cbn; congruence].
Qed.


(** ** What is reported, and when *)

(** X12: a tick that starts enabled makes no report at all in exactly
    three cases: the service offers no firmware info; the firmware info
    lacks a version or a package URI (the flag is then cleared without a
    word to the service); the candidate passes the https check and is not
    newer than the running firmware. *)
Theorem silent_ticks (env : Collaborators) (g : Globals) :
  enableOTA g = true ->
  (occurs is_report (events_of (tick env g)) = false <->
   IoTHubClient_GetLatestFwInfo_ret env = None \/
   malformed env = true \/
   exists fi v u,
     Candidate env g fi v u /\ uri_is_https u = true /\
     IoTHubClient_FwVersionCompare_ret env v currentFirmwareVersion <= 0).
Proof.
  intros H. unfold malformed. outcomes env g.
  all: unfold crc_events; try destruct (fwPackageCheckValue _).
  all: split;
    [ intros S; try discriminate S
    | intros [K | [K | (fi' & v' & u' & C' & Hh & Hc)]]; try reflexivity;
      unpack; same; try conflict ].
  all: first
    [ left; assumption
    | right; left;
      match goal with
      | K : IoTHubClient_GetLatestFwInfo_ret _ = Some _ |- _ => rewrite K
      end; assumption
    | right; right; eexists _, _, _; repeat split; eassumption ].
Qed.

(** X13: on a tick that gets to the download, the first report is the
    status [OTA_STATUS_DOWNLOADING] for the running version, with the
    candidate's version as pending version, the package URI as substatus,
    the start time made of the first clock reading, and an empty end time. *)
Theorem downloading_report
    (env : Collaborators) (g : Globals) (fi : FW_INFO) (v u : string) :
  Downloads env g fi v u ->
  nth_error (reports (events_of (tick env g))) 0 =
    Some [("type", "IoTDevKit");
          (OTA_CURRENT_FW_VERSION, currentFirmwareVersion);
          (OTA_PENDING_FW_VERSION, v);
          (OTA_FW_UPDATE_STATUS, OTA_STATUS_DOWNLOADING);
          (OTA_FW_UPDATE_SUBSTATUS, u);
          (OTA_LAST_FW_UPDATE_STARTTIME, startTimeStr_of env);
          (OTA_LAST_FW_UPDATE_ENDTIME, "")].
Proof.
  intros D. outcomes env g.
  all: reflexivity.
Qed.

Lemma downloading_report_witness :
  nth_error (reports (events_of (tick corrupt_answers enabled))) 0 =
    Some [("type", "IoTDevKit");
          (OTA_CURRENT_FW_VERSION, "1.0.0");
          (OTA_PENDING_FW_VERSION, "1.1.0");
          (OTA_FW_UPDATE_STATUS, OTA_STATUS_DOWNLOADING);
          (OTA_FW_UPDATE_SUBSTATUS, "https://x/fw.bin");
          (OTA_LAST_FW_UPDATE_STARTTIME, "2017-07-14T02:40:00.0000000Z");
          (OTA_LAST_FW_UPDATE_ENDTIME, "")].
Proof.
  exact (downloading_report corrupt_answers enabled good_candidate
           "1.1.0" "https://x/fw.bin" corrupt_downloads).
Defined.

(** X14: when the update is applied, the tick makes two reports, and the
    [OTA_STATUS_APPLYING] report repeats the start time of the
    [OTA_STATUS_DOWNLOADING] report: the array written before the download
    is sent again.  Its end time is made of the second clock reading, its
    substatus is empty. *)
Theorem applying_report
    (env : Collaborators) (g : Globals) (fi : FW_INFO) (v u : string) (n c : Z) :
  Verifies env g fi v u n c ->
  crc_passes fi c ->
  OTAApplyNewFirmware_ret env n (to_uint16 c) = 0 ->
  exists m1 m2,
    reports (events_of (tick env g)) = [m1; m2] /\
    status_of m1 = Some OTA_STATUS_DOWNLOADING /\
    status_of m2 = Some OTA_STATUS_APPLYING /\
    startTime_of m2 = startTime_of m1 /\
    startTime_of m2 = Some (startTimeStr_of env) /\
    endTime_of m2 = Some (endTimeStr_of env) /\
    substatus_of m2 = Some "".
Proof.
  intros V P A. outcomes env g.
  all: unfold crc_events; destruct (fwPackageCheckValue _).
  all: eexists _, _; split; [reflexivity | repeat split].
Qed.

Lemma applying_report_witness :
  exists m1 m2,
    reports (events_of (tick good_answers enabled)) = [m1; m2] /\
    startTime_of m2 = startTime_of m1 /\
    endTime_of m2 = Some "2017-07-14T02:41:00.0000000Z".
Proof.
  destruct (applying_report good_answers enabled good_candidate
              "1.1.0" "https://x/fw.bin" 100 6699 good_verifies eq_refl eq_refl)
    as (m1 & m2 & R & _ & _ & S & _ & E & _).
  exists m1, m2. repeat split; assumption.
Defined.

Lemma timestamp_length_32bit (t : Z) :
  - 2 ^ 31 <= t < 2 ^ 32 -> strlen (strftime_chars time_format (gmtime t)) = 28.
Proof.
  intros H. destruct (gmtime_range t H) as (Y & Mo & D & Ho & Mi & S).
  unfold strlen. rewrite strftime_time_format.
  repeat rewrite length_append.
  rewrite dec_length_4 by assumption.
  rewrite !dec2_length by lia.
  reflexivity.
Qed.

(** X15: the arrays of 30 characters are large enough.  For every time a
    32-bit [time_t] can hold, signed or unsigned, [strftime] with the
    format of lines 133 and 198 writes 28 characters, so it never returns 0
    and never leaves [startTimeStr] or [endTimeStr] indeterminate. *)
Theorem timestamp_buffer_suffices (s : string) (t : Z) :
  - 2 ^ 31 <= t < 2 ^ 32 ->
  strftime s 30 time_format (gmtime t) =
    (28, strftime_chars time_format (gmtime t)).
Proof.
  intros H. unfold strftime. rewrite (timestamp_length_32bit t H). reflexivity.
Qed.

Lemma timestamp_buffer_suffices_witness :
  strftime "" 30 time_format (gmtime 1500000000) =
    (28, strftime_chars time_format (gmtime 1500000000)).
Proof.
  apply (timestamp_buffer_suffices "" 1500000000). cbn. lia.
Defined.

(** X16: when the update is applied, the tick counts down before the
    reboot: after the candidate's version, line 2 of the screen shows 5, 4,
    3, 2 and 1, and the tick waits five times 1000 ms, which are its only
    waits. *)
Theorem countdown_before_reboot
    (env : Collaborators) (g : Globals) (fi : FW_INFO) (v u : string) (n c : Z) :
  Verifies env g fi v u n c ->
  crc_passes fi c ->
  OTAApplyNewFirmware_ret env n (to_uint16 c) = 0 ->
  let t := events_of (tick env g) in
  printed 2 t = [v; "5"; "4"; "3"; "2"; "1"] /\
  filter is_delay t = repeat (Ev_delay 1000) 5 /\
  waited t = 5000.
Proof.
  intros V P A. outcomes env g.
  all: unfold crc_events; destruct (fwPackageCheckValue _).
  all: repeat split.
Qed.

Lemma countdown_before_reboot_witness :
  waited (events_of (tick good_answers enabled)) = 5000.
Proof.
  apply (countdown_before_reboot good_answers enabled good_candidate
           "1.1.0" "https://x/fw.bin" 100 6699 good_verifies eq_refl eq_refl).
Defined.

(** X17: the versions are compared only for a candidate that has a version
    and a package URI and passed the https check, and the comparison is
    always of the candidate's version, first, with the running version
    [1.0.0], second. *)
Theorem versions_compared (env : Collaborators) (g : Globals) :
  let t := events_of (tick env g) in
  (occurs is_compare t = true <->
   exists fi v u, Candidate env g fi v u /\ uri_is_https u = true) /\
  (filter is_compare t = [] \/
   exists fi v,
     IoTHubClient_GetLatestFwInfo_ret env = Some fi /\
     fwVersion fi = Some v /\
     filter is_compare t = [Ev_IoTHubClient_FwVersionCompare v "1.0.0"]).
Proof.
  outcomes env g.
  all: unfold crc_events; try destruct (fwPackageCheckValue _).
  all: split;
    [ split;
      [ intros S; try discriminate S; eexists _, _, _; repeat split; eassumption
      | intros (fi' & v' & u' & C' & Hh); try reflexivity;
        unpack; same; try conflict;
        unfold lacks_version_or_uri in *;
        repeat match goal with K : _ = Some _ |- _ => rewrite K in * end;
        discriminate ]
    | first [ left; reflexivity
            | right; eexists _, _; repeat split; eassumption ] ].
Qed.

Lemma silent_ticks_witness :
  occurs is_report
    (events_of (tick (answers (Some stale_candidate) (-1) (0, 0) 0) enabled)) = false <->
  IoTHubClient_GetLatestFwInfo_ret (answers (Some stale_candidate) (-1) (0, 0) 0) = None \/
  malformed (answers (Some stale_candidate) (-1) (0, 0) 0) = true \/
  exists fi v u,
    Candidate (answers (Some stale_candidate) (-1) (0, 0) 0) enabled fi v u /\
    uri_is_https u = true /\
    IoTHubClient_FwVersionCompare_ret (answers (Some stale_candidate) (-1) (0, 0) 0)
      v currentFirmwareVersion <= 0.
Proof.
  apply (silent_ticks (answers (Some stale_candidate) (-1) (0, 0) 0) enabled).
  reflexivity.
Defined.

(** ** Sizes and apply failures *)

(** X18: a candidate that announces a size of 0, -1 or -2 is never
    applied, whatever the download returns: a download of that size is
    taken for a failed download or a device error before the sizes are
    compared, and any other size does not match. *)
Theorem degenerate_size_never_applied
    (env : Collaborators) (g : Globals) (fi : FW_INFO) :
  IoTHubClient_GetLatestFwInfo_ret env = Some fi ->
  fwSize fi = 0 \/ fwSize fi = -1 \/ fwSize fi = -2 ->
  let r := tick env g in
  occurs is_apply (events_of r) = false /\
  occurs is_reboot (events_of r) = false /\
  flow_of r = Normal tt.
Proof.
  intros L S. outcomes env g.
  all: repeat split.
Qed.

Lemma degenerate_size_never_applied_witness :
  occurs is_apply
    (events_of (tick (answers (Some empty_candidate) 1 (0, 0) 0) enabled)) = false.
Proof.
  apply (degenerate_size_never_applied
           (answers (Some empty_candidate) 1 (0, 0) 0) enabled empty_candidate).
  - reflexivity.
  - left. reflexivity.
Defined.

(** X19: when the apply primitive returns anything but 0, the tick has
    called it once, with the size and the checksum of the download; it then
    makes the [ApplyFirmwareFailed] report, its only error report, clears
    [enableOTA], prints [Apply failed.] on line 3 as its last call, and
    comes back without a reboot. *)
Theorem apply_failure_reported
    (env : Collaborators) (g : Globals) (fi : FW_INFO) (v u : string) (n c : Z) :
  Verifies env g fi v u n c ->
  crc_passes fi c ->
  OTAApplyNewFirmware_ret env n (to_uint16 c) <> 0 ->
  let r := tick env g in
  flow_of r = Normal tt /\
  enableOTA (globals_of r) = false /\
  filter is_apply (events_of r) = [Ev_OTAApplyNewFirmware n (to_uint16 c)] /\
  count is_error (events_of r) = 1%nat /\
  count (is_failure "ApplyFirmwareFailed") (events_of r) = 1%nat /\
  occurs is_reboot (events_of r) = false /\
  last (events_of r) Ev_time = Ev_Screen_print 3 " Apply failed.".
Proof.
  intros V P A. outcomes env g.
  all: unfold crc_events; destruct (fwPackageCheckValue _).
  all: repeat split.
Qed.

Lemma apply_failure_reported_witness :
  count (is_failure "ApplyFirmwareFailed")
    (events_of (tick (answers (Some good_candidate) 1 (100, 6699) 7) enabled)) = 1%nat.
Proof.
  apply (apply_failure_reported
           (answers (Some good_candidate) 1 (100, 6699) 7) enabled
           good_candidate "1.1.0" "https://x/fw.bin" 100 6699).
  - split; [repeat split | reflexivity | lia | reflexivity].
  - reflexivity.
  - cbn. lia.
Defined.
